(** * WildWings mission service: [services/wildwings/main.py]

    A shallow embedding of the mission supervisor: the module-level state
    ([mission_thread], [stop_mission_flag], [current_process], [is_running],
    [logs]), the worker [run_mission_background] as a statement-level step
    machine, and the request handlers [start_mission], [stop_mission],
    [mission_status] and [get_logs] as state transformers whose external
    calls take their outcome from an oracle. *)

From Stdlib Require Import List String Ascii ZArith Lia Bool Arith PeanoNat.
From Stdlib Require Import Decimal DecimalString.
Import ListNotations.
Open Scope string_scope.
Open Scope nat_scope.

(** ** Python strings and lists *)

Module Py.

(** Code points below 256 for which [str.isspace] holds; [str.strip()]
    without argument removes exactly these at both ends.  Strings are
    sequences of code points in the Latin-1 range. *)
Definition isspace (c : ascii) : bool :=
  let n := nat_of_ascii c in
  ((9 <=? n) && (n <=? 13)) || ((28 <=? n) && (n <=? 32))
  || (n =? 133) || (n =? 160).

Fixpoint lstrip (s : string) : string :=
  match s with
  | EmptyString => EmptyString
  | String c s' => if isspace c then lstrip s' else s
  end.

Fixpoint rev (s : string) : string :=
  match s with
  | EmptyString => EmptyString
  | String c s' => rev s' ++ String c EmptyString
  end.

Definition rstrip (s : string) : string := rev (lstrip (rev s)).

Definition strip (s : string) : string := rstrip (lstrip s).

(** Truth value of a string: non-empty. *)
Definition truthy (s : string) : bool :=
  match s with EmptyString => false | String _ _ => true end.

(** [l[start:]] for any integer [start]: a negative start counts from the
    end and is clipped at the beginning, a start beyond the end gives the
    empty list. *)
Definition slice_from {A} (start : Z) (l : list A) : list A :=
  let len := Z.of_nat (List.length l) in
  let i := if (start <? 0)%Z then Z.max 0 (len + start) else Z.min start len in
  skipn (Z.to_nat i) l.

(** [str(n)] for a natural number, and [str.zfill]: the [%m], [%d], [%H],
    [%M] and [%S] of [strftime] are the number filled to two digits, [%Y]
    is the year as it is. *)
Definition str_of_N (n : N) : string :=
  NilEmpty.string_of_uint (N.to_uint n).

Fixpoint zeros (k : nat) : string :=
  match k with O => EmptyString | S k' => String "0" (zeros k') end.

Definition zfill (width : nat) (s : string) : string :=
  zeros (width - String.length s) ++ s.

End Py.

(** ** [datetime.datetime.now().strftime('%Y-%m-%d %H:%M:%S')] *)

Record datetime := mk_datetime {
  year : N; month : N; day : N;
  hour : N; minute : N; second : N
}.


Definition strftime (d : datetime) : string :=
  Py.str_of_N (year d) ++ "-" ++ Py.zfill 2 (Py.str_of_N (month d))
  ++ "-" ++ Py.zfill 2 (Py.str_of_N (day d))
  ++ " " ++ Py.zfill 2 (Py.str_of_N (hour d))
  ++ ":" ++ Py.zfill 2 (Py.str_of_N (minute d))
  ++ ":" ++ Py.zfill 2 (Py.str_of_N (second d)).



(** ** The log buffer (lines 84-91) *)

(** Line 85: the entry written for an output line. *)
Definition log_entry (now : datetime) (line : string) : string :=
  strftime now ++ " - " ++ Py.strip line.

(** Line 86: [logs.append(log_entry)]. *)
Definition logs_append (entry : string) (logs : list string) : list string :=
  (logs ++ [entry])%list.

(** Lines 90-91: [if len(logs) > 1000: logs = logs[-1000:]]. *)
Definition logs_trim (logs : list string) : list string :=
  if 1000 <? List.length logs then Py.slice_from (-1000)%Z logs else logs.

(** One complete append of the mission loop: lines 86 to 91. *)
Definition append_log (entry : string) (logs : list string) : list string :=
  logs_trim (logs_append entry logs).


(** ** Exceptions, external effects and the module state *)

(** The exception classes the service meets; every one derives from
    [Exception], so [except Exception] catches all of them, and
    [except subprocess.TimeoutExpired] only the third. *)
Inductive exn_class :=
| FileNotFoundError | OSError | TimeoutExpired
| AttributeError | RuntimeError | ValueError.

Record exn := mk_exn { exn_class_of : exn_class; str : string }.

Definition is_TimeoutExpired (e : exn) : bool :=
  match exn_class_of e with TimeoutExpired => true | _ => false end.

(** [None.method(...)]. *)
Definition none_has_no_attribute (name : string) : exn :=
  mk_exn AttributeError
         ("'NoneType' object has no attribute '" ++ name ++ "'").

(** A [subprocess.Popen] handle, identified by the child's pid. *)
Definition Popen := nat.

(** Effects on the outside world, in the order they were requested. *)
Inductive event :=
| EvThreadStart            (* [mission_thread.start()] started a thread *)
| EvPopen (p : Popen)      (* [subprocess.Popen(...)] spawned child [p] *)
| EvTerminate (p : Popen)  (* [p.terminate()] was called *)
| EvKill (p : Popen).      (* [p.kill()] was called *)

(** What the operating system answers to one run of the mission loop. *)
Inductive read :=
| Line (line : string) (now : datetime)
    (* [readline] returned [line]; [now] is the clock at line 85 *)
| ReadError (e : exn).

Record MissionEnv := mk_env {
  mkdir_raises : option exn;       (* line 50 *)
  script_exists : bool;            (* line 54 *)
  chmod_raises : option exn;       (* line 58 *)
  popen_result : exn + Popen;      (* line 64 *)
  stdout : list read;              (* line 78, then end of file *)
  terminate_raises : option exn;   (* line 81 *)
  wait_raises : option exn         (* line 93 *)
}.

(** Program points of [run_mission_background], named by source line. *)
Inductive pc :=
| Unstarted                         (* Thread object whose start() failed *)
| L42 | L50 | L54 | L58 | L64 | L74
| L78                               (* [iter(current_process.stdout.readline, '')] *)
| Lread                             (* the [for] statement asks for a line *)
| L79 (line : string) (now : datetime)
| L84 (line : string) (now : datetime)
| L85 (line : string) (now : datetime)
| L90
| L93
| L97 (e : exn)                     (* [except Exception as e] *)
| L99 | L100 | L101                 (* [finally] *)
| Finished
| Crashed (e : exn).                (* an exception left the thread *)

Record Thread := mk_thread { at_pc : pc; env : MissionEnv }.

Record Sys := mk_sys {
  mission_thread : option Thread;
  stop_mission_flag : bool;
  current_process : option Popen;
  is_running : bool;
  logs : list string;
  trace : list event
}.

(** Lines 32-36. *)
Definition initial : Sys := mk_sys None false None false [] [].

Definition set_thread (t : option Thread) (s : Sys) : Sys :=
  mk_sys t (stop_mission_flag s) (current_process s) (is_running s)
         (logs s) (trace s).
Definition set_flag (b : bool) (s : Sys) : Sys :=
  mk_sys (mission_thread s) b (current_process s) (is_running s)
         (logs s) (trace s).
Definition set_process (p : option Popen) (s : Sys) : Sys :=
  mk_sys (mission_thread s) (stop_mission_flag s) p (is_running s)
         (logs s) (trace s).
Definition set_running (b : bool) (s : Sys) : Sys :=
  mk_sys (mission_thread s) (stop_mission_flag s) (current_process s) b
         (logs s) (trace s).
Definition set_logs (l : list string) (s : Sys) : Sys :=
  mk_sys (mission_thread s) (stop_mission_flag s) (current_process s)
         (is_running s) l (trace s).
Definition emit (ev : event) (s : Sys) : Sys :=
  mk_sys (mission_thread s) (stop_mission_flag s) (current_process s)
         (is_running s) (logs s) (trace s ++ [ev])%list.

Definition set_stdout (l : list read) (e : MissionEnv) : MissionEnv :=
  mk_env (mkdir_raises e) (script_exists e) (chmod_raises e) (popen_result e)
         l (terminate_raises e) (wait_raises e).

(** [Thread.is_alive()]. *)
Definition is_alive (t : Thread) : bool :=
  match at_pc t with
  | Unstarted | Finished | Crashed _ => false
  | _ => true
  end.

(** [mission_thread and mission_thread.is_alive()]. *)
Definition thread_alive (s : Sys) : bool :=
  match mission_thread s with
  | Some t => is_alive t
  | None => false
  end.

(** ** The worker: [run_mission_background] (lines 38-102) *)

Inductive outcome :=
| Goto (p : pc)
| Raise (e : exn).

(** One statement of the function body at program point [p]. *)
Definition body_step (p : pc) (e : MissionEnv) (s : Sys)
  : outcome * MissionEnv * Sys :=
  match p with
  | L42 =>
      (* [if stop_mission_flag.is_set(): return], which enters [finally] *)
      if stop_mission_flag s then (Goto L99, e, s) else (Goto L50, e, s)
  | L50 =>
      match mkdir_raises e with
      | Some x => (Raise x, e, s)
      | None => (Goto L54, e, s)
      end
  | L54 =>
      if script_exists e then (Goto L58, e, s)
      else (Raise (mk_exn FileNotFoundError
                          "Launch script not found: /app/launch.sh"), e, s)
  | L58 =>
      match chmod_raises e with
      | Some x => (Raise x, e, s)
      | None => (Goto L64, e, s)
      end
  | L64 =>
      match popen_result e with
      | inl x => (Raise x, e, s)
      | inr p => (Goto L74, e, set_process (Some p) (emit (EvPopen p) s))
      end
  | L74 => (Goto L78, e, set_running true s)
  | L78 =>
      match current_process s with
      | None => (Raise (none_has_no_attribute "stdout"), e, s)
      | Some _ => (Goto Lread, e, s)
      end
  | Lread =>
      match stdout e with
      | [] => (Goto L93, e, s)
      | ReadError x :: rest => (Raise x, set_stdout rest e, s)
      | Line l now :: rest =>
          (* the sentinel [''] ends the iteration *)
          if Py.truthy l then (Goto (L79 l now), set_stdout rest e, s)
          else (Goto L93, set_stdout rest e, s)
      end
  | L79 l now =>
      if stop_mission_flag s then
        match current_process s with
        | None => (Raise (none_has_no_attribute "terminate"), e, s)
        | Some p =>
            match terminate_raises e with
            | Some x => (Raise x, e, emit (EvTerminate p) s)
            | None => (Goto L93, e, emit (EvTerminate p) s)   (* [break] *)
            end
        end
      else (Goto (L84 l now), e, s)
  | L84 l now =>
      if Py.truthy (Py.strip l) then (Goto (L85 l now), e, s)
      else (Goto Lread, e, s)
  | L85 l now =>
      (Goto L90, e, set_logs (logs_append (log_entry now l) (logs s)) s)
  | L90 => (Goto Lread, e, set_logs (logs_trim (logs s)) s)
  | L93 =>
      match current_process s with
      | None => (Raise (none_has_no_attribute "wait"), e, s)
      | Some _ =>
          match wait_raises e with
          | Some x => (Raise x, e, s)
          | None => (Goto L99, e, s)
          end
      end
  | L97 _ => (Goto L99, e, s)
  | L99 => (Goto L100, e, set_running false s)
  | L100 => (Goto L101, e, set_process None s)
  | L101 => (Goto Finished, e, set_flag false s)
  | Unstarted => (Goto Unstarted, e, s)
  | Finished => (Goto Finished, e, s)
  | Crashed x => (Goto (Crashed x), e, s)
  end.

(** The statements between [try:] and [except]. *)
Definition in_try (p : pc) : bool :=
  match p with
  | L42 | L50 | L54 | L58 | L64 | L74 | L78 | Lread
  | L79 _ _ | L84 _ _ | L85 _ _ | L90 | L93 => true
  | _ => false
  end.

(** One statement of the worker, with the [try]/[except Exception] of lines
    41 and 96 around the body. *)
Definition run_mission_background (t : Thread) (s : Sys) : Thread * Sys :=
  match body_step (at_pc t) (env t) s with
  | (Goto p, e, s') => (mk_thread p e, s')
  | (Raise x, e, s') =>
      if in_try (at_pc t) then (mk_thread (L97 x) e, s')
      else (mk_thread (Crashed x) e, s')
  end.

(** The worker thread referenced by [mission_thread] executes its next
    statement. *)
Definition worker_step (s : Sys) : Sys :=
  match mission_thread s with
  | Some t =>
      let (t', s') := run_mission_background t s in set_thread (Some t') s'
  | None => s
  end.

Fixpoint worker_steps (n : nat) (s : Sys) : Sys :=
  match n with
  | O => s
  | S n' => worker_steps n' (worker_step s)
  end.

(** ** Request handlers

    The handlers are coroutines without [await]: they run one at a time on
    the event loop.  The worker is a thread of its own: it runs while a
    handler is in an external call (spawning the thread, signalling or
    waiting for the child, joining the worker), and an oracle says how many
    statements it executes before and during each such call.  The
    statements of a handler between two external calls are one block. *)

Inductive http (A : Type) :=
| HTTP200 (body : A)
| HTTPException (status_code : Z) (detail : string).
Arguments HTTP200 {A} body.
Arguments HTTPException {A} status_code detail.

(** *** POST /start_mission (lines 138-165) *)

Module Start.
Record body := mk { status : string; message : string }.
End Start.

Record StartOracle := mk_start_oracle {
  start_raises : option exn;    (* [mission_thread.start()], line 155 *)
  mission_env : MissionEnv;     (* what the new worker will meet *)
  after_start : nat             (* worker statements run before the return *)
}.

Definition start_mission (o : StartOracle) (s : Sys)
  : http Start.body * Sys :=
  if thread_alive s then
    (HTTPException 400 "Mission already running", s)
  else
    let s1 := set_flag false s in
    match start_raises o with
    | None =>
        let t := mk_thread L42 (mission_env o) in
        let s2 := emit EvThreadStart (set_thread (Some t) s1) in
        (HTTP200 (Start.mk "success" "WildWings mission started"),
         worker_steps (after_start o) s2)
    | Some e =>
        let t := mk_thread Unstarted (mission_env o) in
        (HTTPException 500 ("Failed to start mission: " ++ str e),
         set_thread (Some t) s1)
    end.

(** *** POST /stop_mission (lines 168-227) *)

Module Stop.
Record body := mk { status : string; message : string; was_running : bool }.
End Stop.

(** A state transformer that may raise. *)
Definition M (A : Type) : Type := Sys -> (exn + A) * Sys.

Definition bind {A B} (m : M A) (k : A -> M B) : M B :=
  fun s => match m s with
           | (inr a, s') => k a s'
           | (inl e, s') => (inl e, s')
           end.
Definition modify (f : Sys -> Sys) : M unit := fun s => (inr tt, f s).
Definition when (c : Sys -> bool) (m : M unit) : M unit :=
  fun s => if c s then m s else (inr tt, s).

(** [try: m except <class>: h], for the exceptions [catches] selects. *)
Definition try_except {A} (m : M A) (catches : exn -> bool) (h : M A) : M A :=
  fun s => match m s with
           | (inl e, s') => if catches e then h s' else (inl e, s')
           | r => r
           end.

Notation "m1 ;; m2" := (bind m1 (fun _ => m2))
  (at level 61, right associativity).

(** An external call as the oracle resolves it. *)
Record Call := mk_call {
  before : nat;          (* worker statements run before the call is made *)
  during : nat;          (* worker statements run while the call blocks *)
  raises : option exn
}.

(** [current_process.<name>(...)]: the global is read when the call is made. *)
Definition process_call (name : string) (ev : option (Popen -> event))
                        (c : Call) : M unit :=
  fun s =>
    let s1 := worker_steps (before c) s in
    match current_process s1 with
    | None => (inl (none_has_no_attribute name), s1)
    | Some p =>
        let s2 := match ev with Some f => emit (f p) s1 | None => s1 end in
        let s3 := worker_steps (during c) s2 in
        match raises c with
        | Some e => (inl e, s3)
        | None => (inr tt, s3)
        end
    end.

Definition has_process (s : Sys) : bool :=
  match current_process s with Some _ => true | None => false end.

Record StopOracle := mk_stop_oracle {
  o_terminate : Call;    (* line 190 *)
  o_wait5 : Call;        (* line 194 *)
  o_kill : Call;         (* line 198 *)
  o_wait : Call;         (* line 199 *)
  o_join : nat           (* worker statements run during line 204 *)
}.

(** Lines 183-209, the body of the [try]. *)
Definition stop_mission_try (o : StopOracle) : M unit :=
  modify (set_flag true) ;;
  when has_process
       (process_call "terminate" (Some EvTerminate) (o_terminate o) ;;
        try_except (process_call "wait" None (o_wait5 o))
                   is_TimeoutExpired
                   (process_call "kill" (Some EvKill) (o_kill o) ;;
                    process_call "wait" None (o_wait o))) ;;
  when thread_alive (modify (worker_steps (o_join o))) ;;
  modify (set_running false).

Definition stop_mission (o : StopOracle) (s : Sys) : http Stop.body * Sys :=
  if negb (thread_alive s) then
    (HTTP200 (Stop.mk "success" "No mission currently running" false), s)
  else
    match stop_mission_try o s with
    | (inr _, s') =>
        (HTTP200 (Stop.mk "success" "Mission stopped successfully" true), s')
    | (inl e, s') =>
        (HTTP200 (Stop.mk "error" ("Error stopping mission: " ++ str e) true),
         set_flag true (set_running false s'))
    end.

(** *** GET /mission_status (lines 229-249) *)

Module Status.
Record body := mk {
  status : string;
  thread_alive : bool;
  stop_requested : bool;
  is_running : bool;
  total_logs : nat;
  recent_logs : list string
}.
End Status.

Definition mission_status (s : Sys) : http Status.body * Sys :=
  let status :=
    if thread_alive s then
      if stop_mission_flag s then "stopping" else "running"
    else "idle" in
  let recent_logs :=
    if 10 <? List.length (logs s) then Py.slice_from (-10)%Z (logs s)
    else logs s in
  (HTTP200 (Status.mk status (thread_alive s) (stop_mission_flag s)
                      (is_running s) (List.length (logs s)) recent_logs),
   s).

(** *** GET /logs (lines 251-288) *)

Module Logs.
Record body := mk {
  logs : list string;
  total_lines : nat;
  runtime_logs : list string;
  total_runtime_logs : option nat     (* absent from two of the replies *)
}.
End Logs.

(** The log file when the handler looks at it. *)
Inductive LogFile :=
| NotFound                              (* [Path(...).exists()] is false *)
| Unreadable (e : exn)                  (* [open] or [readlines] raises *)
| Contents (all_lines : list string).

(** Line 271: [[line.strip() for line in recent_lines if line.strip()]]. *)
Definition clean (recent_lines : list string) : list string :=
  map Py.strip (filter (fun line => Py.truthy (Py.strip line)) recent_lines).

Definition get_logs (lines : Z) (f : LogFile) (s : Sys)
  : http Logs.body * Sys :=
  match f with
  | NotFound =>
      (HTTP200 (Logs.mk ["Log file not found"] 0
                        (Py.slice_from (- lines) (logs s)) None), s)
  | Contents all_lines =>
      let recent_lines :=
        if (lines <? Z.of_nat (List.length all_lines))%Z
        then Py.slice_from (- lines) all_lines else all_lines in
      let file_logs := clean recent_lines in
      let runtime_logs :=
        if (lines <? Z.of_nat (List.length (logs s)))%Z
        then Py.slice_from (- lines) (logs s) else logs s in
      (HTTP200 (Logs.mk file_logs (List.length all_lines) runtime_logs
                        (Some (List.length (logs s)))), s)
  | Unreadable e =>
      (HTTP200 (Logs.mk ["Error reading logs: " ++ str e] 0
                        (match logs s with
                         | [] => []
                         | _ => Py.slice_from (- lines) (logs s)
                         end) None), s)
  end.

(** The route: [lines: int = 100]. *)
Definition get_logs_route (query : option Z) : LogFile -> Sys -> http Logs.body * Sys :=
  get_logs (match query with Some n => n | None => 100%Z end).

(** *** Shutdown hook (lines 108-116) *)

Record ShutdownOracle := mk_shutdown_oracle {
  sd_terminate : Call;
  sd_join : nat
}.

Definition lifespan_shutdown (o : ShutdownOracle) : M unit :=
  when thread_alive
       (modify (set_flag true) ;;
        when has_process
             (process_call "terminate" (Some EvTerminate) (sd_terminate o)) ;;
        modify (worker_steps (sd_join o)) ;;
        modify (set_running false)).

(** ** Executions *)

(** What a handler or the shutdown hook can do to the module state while a
    worker is alive: set the stop flag (lines 112, 184, 222), clear
    [is_running] (lines 116, 209, 221), signal the child. *)
Inductive interference :=
| SetStop
| ClearRunning
| Signal (ev : event).

Definition interfere (i : interference) (s : Sys) : Sys :=
  match i with
  | SetStop => set_flag true s
  | ClearRunning => set_running false s
  | Signal ev => emit ev s
  end.

Definition interfere_all (l : list interference) (s : Sys) : Sys :=
  fold_left (fun s i => interfere i s) l s.

(** The atomic steps of the whole service. *)
Inductive step : Sys -> Sys -> Prop :=
| step_worker s :
    step s (worker_step s)
| step_interfere i s :
    step s (interfere i s)
| step_clear_stop s :                       (* line 150 *)
    thread_alive s = false -> step s (set_flag false s)
| step_new_thread p e s :                   (* lines 151-155 *)
    thread_alive s = false -> (p = L42 \/ p = Unstarted) ->
    step s (set_thread (Some (mk_thread p e)) s).

Inductive reachable : Sys -> Prop :=
| reach_initial : reachable initial
| reach_step s s' : reachable s -> step s s' -> reachable s'.

(** The mission loop run to its end under a schedule: before each statement
    of the worker the handlers may interfere.  The run stops with the
    worker. *)
Fixpoint run_worker (fuel : nat) (sched : list (list interference)) (s : Sys)
  : Sys :=
  match fuel with
  | O => s
  | S fuel' =>
      if thread_alive s then
        run_worker fuel' (tl sched)
                   (worker_step (interfere_all (hd [] sched) s))
      else s
  end.

(** Statements a worker executes at most, given the output of its child. *)
Definition steps_bound (e : MissionEnv) : nat :=
  5 * List.length (stdout e) + 13.

Definition pc_of (s : Sys) : option pc := option_map at_pc (mission_thread s).

(** How [current_process] and [is_running] stand at each program point. *)
Definition process_inv (s : Sys) : Prop :=
  match pc_of s with
  | None
  | Some (Unstarted | Finished | Crashed _ | L42 | L50 | L54 | L58 | L64 | L101) =>
      current_process s = None /\ is_running s = false
  | Some L74 =>
      current_process s <> None /\ is_running s = false
  | Some (L78 | Lread | L79 _ _ | L84 _ _ | L85 _ _ | L90 | L93) =>
      current_process s <> None
  | Some (L97 _ | L99) =>
      is_running s = true -> current_process s <> None
  | Some L100 =>
      is_running s = false
  end.

(** The size of the buffer at each program point. *)
Definition logs_inv (s : Sys) : Prop :=
  match pc_of s with
  | Some L90 => List.length (logs s) <= 1001
  | _ => List.length (logs s) <= 1000
  end.

(** ** Auxiliary definitions and sample inputs *)

(** The last [k] elements of a list, all of them when there are fewer. *)
Definition lastn {A} (k : nat) (l : list A) : list A :=
  skipn (List.length l - k) l.

(** The buffer after appending the entries [es] one by one. *)
Definition append_logs (es : list string) (l : list string) : list string :=
  fold_left (fun l e => append_log e l) es l.




(** A computation that only takes atomic steps. *)
Definition steps_only {A} (m : M A) : Prop :=
  forall s, reachable s -> reachable (snd (m s)).

(** The number of threads started so far. *)
Definition thread_starts (s : Sys) : nat :=
  List.length (filter (fun ev => match ev with EvThreadStart => true | _ => false end)
                      (trace s)).

(** The operating system refuses a new thread. *)
Definition thread_start_fails : StartOracle :=
  mk_start_oracle
    (Some (mk_exn RuntimeError "can't start new thread"))
    (mk_env None true None (inr 4242) [] None None) 0.

(** A launch that succeeds; the child prints one line and exits. *)
Definition launch_ok : StartOracle :=
  mk_start_oracle None
    (mk_env None true None (inr 4242)
            [Line "tracking herd
" (mk_datetime 2024 3 7 9 5 0)] None None) 0.

(** A line of output with the clock at which it is logged: what the loop
    reads, the entry it makes of it, and the lines it does not skip. *)
Definition read_line (x : string * datetime) : read := Line (fst x) (snd x).
Definition entry_of (x : string * datetime) : string := log_entry (snd x) (fst x).
Definition non_blank (x : string * datetime) : Prop :=
  Py.truthy (Py.strip (fst x)) = true.


(** [count] lines of output, numbered from [from]. *)
Definition numbered_lines (from count : nat) : list (string * datetime) :=
  map (fun n => ("frame " ++ Py.str_of_N (N.of_nat n),
                 mk_datetime 2024 3 7 9 5 0))
      (seq from count).

(** The worker has just executed line 64 and not yet line 74. *)
Definition after_popen : Sys :=
  worker_steps 5 (snd (start_mission launch_ok initial)).

(** A call that returns at once, the worker standing still. *)
Definition quiet : Call := mk_call 0 0 None.




(** There is no launch script. *)
Definition missing_script : MissionEnv :=
  mk_env None false None (inr 4242) [] None None.

(** A stop request arrives while the second line is in hand. *)
Definition stop_arrives : list (list interference) :=
  [[]; []; []; []; []; []; []; []; []; []; []; []; []; [SetStop]].

(** A child that would print three lines. *)
Definition three_lines : MissionEnv :=
  mk_env None true None (inr 4242)
         [Line "herd sighted
" (mk_datetime 2024 3 7 9 5 0);
          Line "drone repositioning
" (mk_datetime 2024 3 7 9 5 1);
          Line "never read
" (mk_datetime 2024 3 7 9 5 2)]
         None None.

(** The worker clears [current_process] between the test of line 188 and
    the call of line 190. *)
Definition handle_vanishes : StopOracle :=
  mk_stop_oracle (mk_call 6 0 None) quiet quiet quiet 0.

(** The worker of [launch_ok] with its one line in hand. *)
Definition line_in_hand : Sys :=
  worker_steps 8 (snd (start_mission launch_ok initial)).

(** Seven entries in the buffer, no worker. *)
Definition seven_logs : Sys :=
  mk_sys None false None false
         (map entry_of (numbered_lines 0 7)) [].

(** ** Further definitions: blank lines, entries, executions as clients
    drive them *)

(** A string of whitespace only. *)
Fixpoint isblank (s : string) : bool :=
  match s with
  | EmptyString => true
  | String c s' => Py.isspace c && isblank s'
  end.

(** An entry as line 85 writes it, for a line that is not blank. *)
Definition is_entry (x : string) : Prop :=
  exists now l, x = log_entry now l /\ isblank l = false.

(** What the buffer holds, and the line line 85 is about to log. *)
Definition entries_inv (s : Sys) : Prop :=
  Forall is_entry (logs s) /\
  match pc_of s with
  | Some (L85 l _) => isblank l = false
  | _ => True
  end.



(** The states of the service as requests, the shutdown hook and the
    worker produce them. *)
Inductive served : Sys -> Prop :=
| served_initial : served initial
| served_worker s : served s -> served (worker_step s)
| served_start o s : served s -> served (snd (start_mission o s))
| served_stop o s : served s -> served (snd (stop_mission o s))
| served_shutdown o s : served s -> served (snd (lifespan_shutdown o s)).

(** A computation that keeps [I], however it ends. *)
Definition keeps {A} (I : Sys -> Prop) (m : M A) : Prop :=
  forall s, I s -> I (snd (m s)).

(** The number of children spawned so far. *)
Definition popens (s : Sys) : nat :=
  List.length (filter (fun ev => match ev with EvPopen _ => true | _ => false end)
                      (trace s)).

(** A live worker that has not reached the end of line 64 yet. *)
Definition before_spawn (s : Sys) : nat :=
  match pc_of s with
  | Some (L42 | L50 | L54 | L58 | L64) => 1
  | _ => 0
  end.

Definition spawn_inv (s : Sys) : Prop :=
  popens s + before_spawn s <= thread_starts s.

(** Handles and signals refer to children that were spawned. *)
Definition signals_inv (s : Sys) : Prop :=
  (forall p, current_process s = Some p -> In (EvPopen p) (trace s)) /\
  (forall p, In (EvTerminate p) (trace s) \/ In (EvKill p) (trace s) ->
             In (EvPopen p) (trace s)).

(** The launch stops before a child exists. *)
Definition launch_fails (e : MissionEnv) : bool :=
  match mkdir_raises e, chmod_raises e, popen_result e with
  | None, None, inr _ => negb (script_exists e)
  | _, _, _ => true
  end.

Definition non_blankb (x : string * datetime) : bool :=
  negb (isblank (fst x)).

(** Statements the loop spends on the lines [ls]: five for a line it logs,
    three for a blank one. *)
Definition loop_cost (ls : list (string * datetime)) : nat :=
  list_sum (map (fun x => if non_blankb x then 5 else 3) ls).

(** Statements left to a worker once the stop flag is set. *)
Definition remaining_stopped (t : Thread) : nat :=
  match at_pc t with
  | L50 => 13 | L54 => 12 | L58 => 11 | L64 => 10 | L74 => 9
  | L78 => 8 | Lread => 7 | L79 _ _ => 6
  | L84 _ _ => 10 | L85 _ _ => 9 | L90 => 8
  | L93 => 5 | L97 _ => 4 | L42 => 4 | L99 => 3 | L100 => 2 | L101 => 1
  | Unstarted | Finished | Crashed _ => 0
  end.

Definition stopped_left (s : Sys) : nat :=
  match mission_thread s with Some t => remaining_stopped t | None => 0 end.

(** Lines of output not read yet, plus one once no further line will be
    read under a stop request. *)
Definition unread (s : Sys) : nat :=
  match mission_thread s with
  | Some t =>
      List.length (stdout (env t))
      + match at_pc t with
        | L50 | L54 | L58 | L64 | L74 | L78 | Lread
        | L84 _ _ | L85 _ _ | L90 => 0
        | _ => 1
        end
  | None => 1
  end.





(** A stop request made with a line in hand, whose join times out. *)
Definition stopped_in_flight : Sys :=
  snd (stop_mission (mk_stop_oracle quiet quiet quiet quiet 0) line_in_hand).


(** Output with a blank line in the middle. *)
Definition mixed_lines : list (string * datetime) :=
  [("herd sighted
", mk_datetime 2024 3 7 9 5 0);
   ("
", mk_datetime 2024 3 7 9 5 1);
   ("  drone repositioning
", mk_datetime 2024 3 7 9 5 2)].

Definition mixed_env : MissionEnv :=
  mk_env None true None (inr 4242) (map read_line mixed_lines) None None.

(** At rest with the stop flag left set, as after a stop that failed. *)
Definition stale_stop : Sys :=
  snd (stop_mission handle_vanishes
         (worker_steps 7 (snd (start_mission launch_ok initial)))).

(** The worker of [launch_ok] past line 74. *)
Definition marked_running : Sys :=
  worker_steps 6 (snd (start_mission launch_ok initial)).

(** The body of a reply. *)
Definition body_of {A} (r : http A * Sys) : option A :=
  match fst r with
  | HTTP200 b => Some b
  | HTTPException _ _ => None
  end.

(** * Properties *)

Example strftime_ex :
  strftime (mk_datetime 2024 3 7 9 5 0) = "2024-03-07 09:05:00".
Proof. reflexivity. Qed.

Example strip_ex : Py.strip "  ok line
" = "ok line".
Proof. reflexivity. Qed.

(** ** Slices *)

Section Slices.
Context {A : Type}.
Implicit Types l : list A.

Lemma slice_from_neg l (n : Z) :
  (0 < n)%Z -> Py.slice_from (- n) l = lastn (Z.to_nat n) l.
Proof.
  intros Hn. unfold Py.slice_from, lastn.
  destruct (Z.ltb_spec (- n) 0) as [_|H]; [|lia].
  f_equal. lia.
Qed.

Lemma slice_from_zero l : Py.slice_from (- 0) l = l.
Proof.
  unfold Py.slice_from. simpl.
  rewrite Z.min_l by lia. reflexivity.
Qed.


Lemma lastn_length k l : List.length (lastn k l) = Nat.min k (List.length l).
Proof. unfold lastn. rewrite length_skipn. lia. Qed.

Lemma lastn_all k l : List.length l <= k -> lastn k l = l.
Proof.
  intros H. unfold lastn.
  replace (List.length l - k) with 0 by lia. reflexivity.
Qed.

Lemma lastn_app_lastn k l1 l2 :
  lastn k (lastn k l1 ++ l2) = lastn k (l1 ++ l2).
Proof.
  destruct (Nat.le_gt_cases (List.length l1) k) as [H|H].
  - rewrite (lastn_all k l1) by exact H. reflexivity.
  - unfold lastn at 1 3. rewrite !length_app, lastn_length.
    rewrite Nat.min_l by lia. unfold lastn.
    rewrite !skipn_app, skipn_skipn, length_skipn.
    f_equal; f_equal; lia.
Qed.

Lemma lastn_app_long k l1 l2 :
  k <= List.length l2 -> lastn k (l1 ++ l2) = lastn k l2.
Proof.
  intros H. unfold lastn. rewrite length_app, skipn_app.
  rewrite skipn_all2 by lia. simpl. f_equal. lia.
Qed.

(** The result is a suffix: order is that of the original list. *)
Lemma lastn_suffix k l : exists dropped, l = (dropped ++ lastn k l)%list.
Proof.
  exists (firstn (List.length l - k) l). unfold lastn.
  symmetry. apply firstn_skipn.
Qed.
End Slices.

(** ** The log buffer *)

Lemma logs_trim_lastn l : logs_trim l = lastn 1000 l.
Proof.
  unfold logs_trim. destruct (Nat.ltb_spec 1000 (List.length l)) as [H|H].
  - apply (slice_from_neg l 1000). lia.
  - symmetry. apply lastn_all. exact H.
Qed.

Lemma append_log_lastn e l : append_log e l = lastn 1000 (l ++ [e]).
Proof. unfold append_log, logs_append. apply logs_trim_lastn. Qed.

Lemma append_log_length e l : List.length (append_log e l) <= 1000.
Proof. rewrite append_log_lastn, lastn_length. lia. Qed.

Lemma append_logs_lastn es : forall l,
  List.length l <= 1000 -> append_logs es l = lastn 1000 (l ++ es).
Proof.
  induction es as [|e es IH]; intros l Hl; simpl.
  - rewrite app_nil_r. symmetry. apply lastn_all. exact Hl.
  - unfold append_logs in *. simpl.
    rewrite IH by apply append_log_length.
    rewrite append_log_lastn, lastn_app_lastn, <- app_assoc. reflexivity.
Qed.

Lemma append_logs_length es : forall l,
  List.length l <= 1000 -> List.length (append_logs es l) <= 1000.
Proof.
  intros l Hl. rewrite append_logs_lastn by exact Hl.
  rewrite lastn_length. lia.
Qed.

Lemma append_logs_overflow es l :
  1000 < List.length es -> append_logs es l = lastn 1000 es.
Proof.
  destruct es as [|e es]; simpl; [lia|]. intros H.
  unfold append_logs. simpl.
  change (append_logs es (append_log e l) = lastn 1000 (e :: es)).
  rewrite append_logs_lastn by apply append_log_length.
  rewrite append_log_lastn, lastn_app_lastn, <- app_assoc. simpl.
  apply lastn_app_long. simpl. lia.
Qed.

(** ** The timestamp *)





(** ** Invariants of the executions *)

Arguments logs_trim : simpl never.
Arguments logs_append : simpl never.
Arguments log_entry : simpl never.
Arguments Py.strip : simpl never.
Arguments Py.truthy : simpl never.

Ltac split_var :=
  match goal with
  | |- context [match ?x with _ => _ end] => is_var x; destruct x
  | |- context [if ?x then _ else _] => is_var x; destruct x
  | |- context [Py.truthy ?x] => destruct (Py.truthy x) eqn:?
  end.

Ltac by_cases := repeat (simpl; split_var); simpl.

Ltac open_state s p :=
  destruct s as [[[p [? ? ? ? ? ? ?]]|] ? ? ? ? ?].

Lemma worker_step_process_inv s : process_inv s -> process_inv (worker_step s).
Proof.
  open_state s p; [|trivial].
  unfold process_inv, pc_of, worker_step, run_mission_background.
  destruct p; by_cases; intuition congruence.
Qed.

Lemma worker_step_logs_inv s : logs_inv s -> logs_inv (worker_step s).
Proof.
  open_state s p; [|trivial].
  unfold logs_inv, pc_of, worker_step, run_mission_background.
  destruct p; try (by_cases; solve [lia | intuition congruence]).
  - (* line 86 *)
    simpl. unfold logs_append. rewrite length_app. simpl. lia.
  - (* lines 90-91 *)
    simpl. intros _. rewrite logs_trim_lastn, lastn_length. lia.
Qed.

Lemma step_process_inv s s' : step s s' -> process_inv s -> process_inv s'.
Proof.
  intros H. destruct H as [s|i s|s Hdead|p e s Hdead Hp].
  - apply worker_step_process_inv.
  - destruct s as [[[p e]|] flag cp ir lg tr];
      unfold process_inv, pc_of; destruct i; simpl; try tauto;
      destruct p; simpl; intuition congruence.
  - destruct s as [[[p e]|] flag cp ir lg tr]; unfold process_inv, pc_of;
      simpl; tauto.
  - destruct s as [[[q e']|] flag cp ir lg tr];
      unfold process_inv, pc_of, thread_alive, is_alive in *; simpl in *;
      destruct Hp as [-> | ->]; try tauto;
      destruct q; simpl in *; (discriminate || tauto).
Qed.

Lemma step_logs_inv s s' : step s s' -> logs_inv s -> logs_inv s'.
Proof.
  intros H. destruct H as [s|i s|s Hdead|p e s Hdead Hp].
  - apply worker_step_logs_inv.
  - destruct s as [mt flag cp ir lg tr]; unfold logs_inv, pc_of;
      destruct i; simpl; tauto.
  - destruct s as [mt flag cp ir lg tr]; unfold logs_inv, pc_of; simpl; tauto.
  - destruct s as [[[q e']|] flag cp ir lg tr];
      unfold logs_inv, pc_of, thread_alive, is_alive in *; simpl in *;
      destruct Hp as [-> | ->]; try tauto;
      destruct q; simpl in *; (discriminate || tauto).
Qed.

Lemma reachable_process_inv s : reachable s -> process_inv s.
Proof.
  induction 1 as [|s s' _ IH Hstep].
  - unfold process_inv. simpl. tauto.
  - eapply step_process_inv; eassumption.
Qed.

Lemma reachable_logs_inv s : reachable s -> logs_inv s.
Proof.
  induction 1 as [|s s' _ IH Hstep].
  - unfold logs_inv. simpl. lia.
  - eapply step_logs_inv; eassumption.
Qed.

(** Handlers are sequences of atomic steps. *)

Lemma reachable_worker_steps n : forall s,
  reachable s -> reachable (worker_steps n s).
Proof.
  induction n as [|n IH]; intros s H; simpl; [exact H|].
  apply IH. eapply reach_step; [exact H | constructor].
Qed.

Lemma reachable_interfere i s : reachable s -> reachable (interfere i s).
Proof. intros H. eapply reach_step; [exact H | constructor]. Qed.

Lemma steps_only_bind {A B} (m : M A) (k : A -> M B) :
  steps_only m -> (forall a, steps_only (k a)) -> steps_only (bind m k).
Proof.
  intros Hm Hk s Hs. unfold bind. specialize (Hm s Hs).
  destruct (m s) as [[e|a] s']; simpl in *; [exact Hm|].
  apply Hk. exact Hm.
Qed.

Lemma steps_only_when c (m : M unit) : steps_only m -> steps_only (when c m).
Proof.
  intros Hm s Hs. unfold when. destruct (c s); [apply Hm|]; exact Hs.
Qed.

Lemma steps_only_try {A} (m h : M A) catches :
  steps_only m -> steps_only h -> steps_only (try_except m catches h).
Proof.
  intros Hm Hh s Hs. unfold try_except. specialize (Hm s Hs).
  destruct (m s) as [[e|a] s']; simpl in *; [|exact Hm].
  destruct (catches e); [apply Hh|]; exact Hm.
Qed.

Lemma steps_only_process_call name ev c : steps_only (process_call name ev c).
Proof.
  intros s Hs. unfold process_call.
  pose proof (reachable_worker_steps (before c) s Hs) as H1.
  destruct (current_process (worker_steps (before c) s)) as [p|]; [|exact H1].
  assert (H2 : reachable
                 (worker_steps (during c)
                    match ev with
                    | Some f => emit (f p) (worker_steps (before c) s)
                    | None => worker_steps (before c) s
                    end)).
  { apply reachable_worker_steps. destruct ev as [f|]; [|exact H1].
    apply (reachable_interfere (Signal (f p))). exact H1. }
  destruct (raises c); exact H2.
Qed.

Lemma steps_only_set_stop : steps_only (modify (set_flag true)).
Proof. intros s Hs. apply (reachable_interfere SetStop). exact Hs. Qed.

Lemma steps_only_clear_running : steps_only (modify (set_running false)).
Proof. intros s Hs. apply (reachable_interfere ClearRunning). exact Hs. Qed.

Lemma steps_only_worker n : steps_only (modify (worker_steps n)).
Proof. intros s Hs. apply reachable_worker_steps. exact Hs. Qed.

Lemma steps_only_stop_try o : steps_only (stop_mission_try o).
Proof.
  unfold stop_mission_try.
  repeat first
    [ apply steps_only_bind; [|intros _]
    | apply steps_only_when
    | apply steps_only_try
    | apply steps_only_process_call
    | apply steps_only_set_stop
    | apply steps_only_clear_running
    | apply steps_only_worker ].
Qed.

Lemma reachable_stop_mission o s :
  reachable s -> reachable (snd (stop_mission o s)).
Proof.
  intros Hs. unfold stop_mission.
  destruct (thread_alive s); simpl; [|exact Hs].
  pose proof (steps_only_stop_try o s Hs) as H.
  destruct (stop_mission_try o s) as [[e|u] s']; simpl in *; [|exact H].
  apply (reachable_interfere SetStop).
  apply (reachable_interfere ClearRunning). exact H.
Qed.

Lemma reachable_start_mission o s :
  reachable s -> reachable (snd (start_mission o s)).
Proof.
  intros Hs. unfold start_mission.
  destruct (thread_alive s) eqn:Halive; simpl; [exact Hs|].
  assert (H1 : reachable (set_flag false s)).
  { eapply reach_step; [exact Hs|]. apply step_clear_stop. exact Halive. }
  destruct (start_raises o); simpl.
  - eapply reach_step; [exact H1|].
    apply step_new_thread; [exact Halive | right; reflexivity].
  - apply reachable_worker_steps.
    apply (reachable_interfere (Signal EvThreadStart)).
    eapply reach_step; [exact H1|].
    apply step_new_thread; [exact Halive | left; reflexivity].
Qed.

Lemma reachable_shutdown o s :
  reachable s -> reachable (snd (lifespan_shutdown o s)).
Proof.
  revert s. change (steps_only (lifespan_shutdown o)).
  unfold lifespan_shutdown.
  repeat first
    [ apply steps_only_bind; [|intros _]
    | apply steps_only_when
    | apply steps_only_process_call
    | apply steps_only_set_stop
    | apply steps_only_clear_running
    | apply steps_only_worker ].
Qed.

(** ** Worker steps and the effect trace *)

Lemma worker_step_thread_starts s : thread_starts (worker_step s) = thread_starts s.
Proof.
  open_state s p; [|reflexivity].
  unfold thread_starts, worker_step, run_mission_background.
  destruct p; by_cases; rewrite ?filter_app, ?app_nil_r; simpl;
    rewrite ?app_nil_r; reflexivity.
Qed.

Lemma worker_steps_thread_starts n : forall s,
  thread_starts (worker_steps n s) = thread_starts s.
Proof.
  induction n as [|n IH]; intros s; simpl; [reflexivity|].
  rewrite IH. apply worker_step_thread_starts.
Qed.

Lemma worker_steps_add a : forall b s,
  worker_steps (a + b) s = worker_steps b (worker_steps a s).
Proof.
  induction a as [|a IH]; intros b s; simpl; [reflexivity|]. apply IH.
Qed.

(** ** start_mission *)

(** C1, as stated, fails: with no worker alive, a [mission_thread.start()]
    that raises makes the call fail with a 500 error, and no thread is
    spawned. *)
Lemma start_mission_thread_start_fails :
  thread_alive initial = false /\
  fst (start_mission thread_start_fails initial)
  = HTTPException 500 "Failed to start mission: can't start new thread" /\
  thread_starts (snd (start_mission thread_start_fails initial)) = 0 /\
  thread_alive (snd (start_mission thread_start_fails initial)) = false.
Proof. repeat split. Qed.

(** C1, amended.  A call to [start_mission] with a worker alive fails with
    the 400 error "Mission already running" and changes nothing.  Otherwise
    it clears the stop flag and calls [start()] on a new thread: if that
    raises, the call fails with a 500 error and no thread runs; if not,
    exactly one thread was started, on the mission loop, and the call
    answers success whatever the worker has done meanwhile (with no
    statement of it run, it is still at its first line with no child
    spawned). *)
Theorem start_mission_spec (o : StartOracle) (s : Sys) :
  (thread_alive s = true ->
     start_mission o s = (HTTPException 400 "Mission already running", s)) /\
  (thread_alive s = false ->
     match start_raises o with
     | Some e =>
         fst (start_mission o s)
         = HTTPException 500 ("Failed to start mission: " ++ str e) /\
         stop_mission_flag (snd (start_mission o s)) = false /\
         thread_alive (snd (start_mission o s)) = false /\
         thread_starts (snd (start_mission o s)) = thread_starts s
     | None =>
         exists s1,
           start_mission o s
           = (HTTP200 (Start.mk "success" "WildWings mission started"),
              worker_steps (after_start o) s1) /\
           stop_mission_flag s1 = false /\
           mission_thread s1 = Some (mk_thread L42 (mission_env o)) /\
           trace s1 = (trace s ++ [EvThreadStart])%list /\
           current_process s1 = current_process s /\
           is_running s1 = is_running s /\
           logs s1 = logs s /\
           thread_starts (snd (start_mission o s)) = S (thread_starts s)
     end).
Proof.
  unfold start_mission. split; intros Halive; rewrite Halive; [reflexivity|].
  destruct (start_raises o) as [e|]; simpl.
  - repeat split.
  - eexists. split; [reflexivity|]. repeat split.
    rewrite worker_steps_thread_starts. unfold thread_starts. simpl.
    rewrite filter_app, length_app. simpl. lia.
Qed.

Lemma start_mission_spec_witness :
  start_mission launch_ok (snd (start_mission launch_ok initial))
  = (HTTPException 400 "Mission already running",
     snd (start_mission launch_ok initial)) /\
  thread_starts (snd (start_mission launch_ok initial)) = 1.
Proof.
  split.
  - apply (proj1 (start_mission_spec launch_ok
                    (snd (start_mission launch_ok initial)))).
    reflexivity.
  - destruct (proj2 (start_mission_spec launch_ok initial) eq_refl)
      as (s1 & _ & _ & _ & _ & _ & _ & _ & H).
    exact H.
Defined.

(** ** The streaming loop (lines 78-91) *)

Lemma strip_empty : Py.strip "" = "".
Proof. reflexivity. Qed.

Lemma truthy_strip l : Py.truthy (Py.strip l) = true -> Py.truthy l = true.
Proof. destruct l; [rewrite strip_empty; discriminate | reflexivity]. Qed.

(** With no stop requested, the loop turns the non-blank lines it reads
    into entries of the buffer, one [append_log] each, five statements a
    line. *)
Lemma stream_lines ls : forall rest e cp ir lg tr,
  Forall non_blank ls ->
  stdout e = (map read_line ls ++ rest)%list ->
  worker_steps (5 * List.length ls)
    (mk_sys (Some (mk_thread Lread e)) false cp ir lg tr)
  = mk_sys (Some (mk_thread Lread (set_stdout rest e))) false cp ir
           (append_logs (map entry_of ls) lg) tr.
Proof.
  induction ls as [|[l now] ls IH]; intros rest e cp ir lg tr Hnb Hout.
  - simpl in *. destruct e; simpl in *. subst. reflexivity.
  - inversion Hnb as [|x xs Hl Hls]; subst.
    replace (5 * List.length ((l, now) :: ls))
      with (5 + 5 * List.length ls) by (simpl; lia).
    rewrite worker_steps_add.
    assert (Hstep :
      worker_steps 5 (mk_sys (Some (mk_thread Lread e)) false cp ir lg tr)
      = mk_sys (Some (mk_thread Lread (set_stdout (map read_line ls ++ rest) e)))
               false cp ir (append_log (log_entry now l) lg) tr).
    { unfold non_blank in Hl. simpl in Hl.
      pose proof (truthy_strip l Hl) as Hl'.
      simpl. unfold worker_step at 5, run_mission_background. simpl.
      rewrite Hout. simpl. rewrite Hl'. simpl.
      unfold worker_step at 4, run_mission_background. simpl.
      unfold worker_step at 3, run_mission_background. simpl.
      rewrite Hl. simpl.
      unfold worker_step at 2, run_mission_background. simpl.
      unfold worker_step, run_mission_background. simpl.
      reflexivity. }
    rewrite Hstep.
    rewrite (IH rest (set_stdout (map read_line ls ++ rest) e) cp ir
                (append_log (log_entry now l) lg) tr Hls)
      by (destruct e; reflexivity).
    destruct e; reflexivity.
Qed.



(** ** The capacity of the buffer *)

(** C2.  In every execution the buffer holds at most 1000 entries whenever
    the worker is not between the append of line 86 and the trim of lines
    90-91; one complete append leaves at most 1000 entries whatever the
    buffer was; a mission loop that reads more than 1000 non-blank lines
    with no stop requested ends with exactly the entries of the last 1000
    of them in the buffer, in the order they were read. *)
Theorem log_buffer_capacity :
  (forall s, reachable s -> pc_of s <> Some L90 ->
     List.length (logs s) <= 1000) /\
  (forall entry l, List.length (append_log entry l) <= 1000) /\
  (forall ls e cp ir lg tr,
     Forall non_blank ls -> stdout e = map read_line ls ->
     1000 < List.length ls ->
     let s' := worker_steps (5 * List.length ls)
                 (mk_sys (Some (mk_thread Lread e)) false cp ir lg tr) in
     logs s' = lastn 1000 (map entry_of ls) /\
     List.length (logs s') = 1000 /\
     exists dropped, map entry_of ls = (dropped ++ logs s')%list).
Proof.
  split; [|split].
  - intros s Hs Hpc. pose proof (reachable_logs_inv s Hs) as H.
    unfold logs_inv in H. destruct (pc_of s) as [[]|]; try exact H.
    congruence.
  - apply append_log_length.
  - intros ls e cp ir lg tr Hnb Hout Hlen s'. subst s'.
    rewrite (stream_lines ls [] e cp ir lg tr Hnb)
      by (rewrite app_nil_r; exact Hout).
    simpl. rewrite append_logs_overflow by (rewrite length_map; exact Hlen).
    split; [reflexivity|]. split.
    + rewrite lastn_length, length_map. lia.
    + apply lastn_suffix.
Qed.

Lemma log_buffer_capacity_witness :
  logs (worker_steps (5 * 1500)
          (mk_sys (Some (mk_thread Lread
                           (mk_env None true None (inr 4242)
                                   (map read_line (numbered_lines 0 1500))
                                   None None)))
                  false (Some 4242) true [] [EvThreadStart; EvPopen 4242]))
  = map entry_of (numbered_lines 500 1000).
Proof.
  pose proof (proj2 (proj2 log_buffer_capacity)
                (numbered_lines 0 1500)
                (mk_env None true None (inr 4242)
                        (map read_line (numbered_lines 0 1500)) None None)
                (Some 4242) true [] [EvThreadStart; EvPopen 4242]) as H.
  assert (Hnb : Forall non_blank (numbered_lines 0 1500)).
  { apply Forall_forall. intros x Hx.
    assert (Hall : forallb (fun x => Py.truthy (Py.strip (fst x)))
                           (numbered_lines 0 1500) = true)
      by (vm_compute; reflexivity).
    rewrite forallb_forall in Hall. apply Hall. exact Hx. }
  assert (Hlen : List.length (numbered_lines 0 1500) = 1500).
  { unfold numbered_lines. rewrite length_map, length_seq. reflexivity. }
  specialize (H Hnb eq_refl). rewrite Hlen in H.
  destruct (H ltac:(lia)) as [H1 _].
  rewrite H1. vm_compute. reflexivity.
Defined.

(** ** The process handle and [is_running] *)

(** C3, as stated, fails: between the assignments of lines 64 and 74 the
    handle is recorded and [is_running] is still false. *)
Lemma handle_recorded_before_is_running :
  reachable after_popen /\
  pc_of after_popen = Some L74 /\
  current_process after_popen = Some 4242 /\
  is_running after_popen = false.
Proof.
  split; [|repeat split].
  apply reachable_worker_steps, reachable_start_mission, reach_initial.
Qed.

(** The same state of affairs outlives a request: a [stop_mission] whose
    join times out answers success with the worker alive and the handle
    still recorded. *)
Remark stop_mission_join_times_out :
  let s := worker_steps 7 (snd (start_mission launch_ok initial)) in
  let r := stop_mission (mk_stop_oracle quiet quiet quiet quiet 0) s in
  fst r = HTTP200 (Stop.mk "success" "Mission stopped successfully" true) /\
  thread_alive (snd r) = true /\
  current_process (snd r) = Some 4242 /\
  is_running (snd r) = false.
Proof. repeat split. Qed.

(** C3, amended.  At every point of every execution: the process handle is
    recorded only while the worker thread is alive; [is_running] is true
    only while the handle is recorded; and when no worker is alive both are
    cleared. *)
Theorem process_handle_invariant (s : Sys) :
  reachable s ->
  (current_process s <> None -> thread_alive s = true) /\
  (is_running s = true -> current_process s <> None) /\
  (thread_alive s = false -> current_process s = None /\ is_running s = false).
Proof.
  intros Hs. pose proof (reachable_process_inv s Hs) as H.
  unfold process_inv, pc_of in H. unfold thread_alive, is_alive.
  destruct (mission_thread s) as [[p e]|]; simpl in *.
  - destruct p; simpl; intuition congruence.
  - intuition congruence.
Qed.

Lemma process_handle_invariant_witness :
  reachable after_popen /\ thread_alive after_popen = true.
Proof.
  assert (H : reachable after_popen)
    by apply reachable_worker_steps, reachable_start_mission, reach_initial.
  split; [exact H|].
  apply (proj1 (process_handle_invariant after_popen H)).
  vm_compute. discriminate.
Defined.

(** ** The mission loop always ends in its cleanup *)

Lemma interfere_all_thread l : forall s,
  mission_thread (interfere_all l s) = mission_thread s.
Proof.
  induction l as [|i l IH]; intros s; simpl; [reflexivity|].
  unfold interfere_all in IH. rewrite IH. destruct i; reflexivity.
Qed.






Example run_missing_script :
  run_worker (steps_bound missing_script) []
             (mk_sys (Some (mk_thread L42 missing_script)) false None false [] [])
  = mk_sys (Some (mk_thread Finished missing_script)) false None false [] [].
Proof. reflexivity. Qed.

Example run_forced_stop :
  let s' := run_worker (steps_bound three_lines) stop_arrives
              (mk_sys (Some (mk_thread L42 three_lines)) false None false [] []) in
  logs s' = ["2024-03-07 09:05:00 - herd sighted"] /\
  trace s' = [EvPopen 4242; EvTerminate 4242] /\
  pc_of s' = Some Finished /\ stop_mission_flag s' = false.
Proof. repeat split. Qed.


(** ** stop_mission *)

Lemma bind_modify_last {A} (m : M A) f s u s' :
  (m ;; modify f) s = (inr u, s') -> exists s1, s' = f s1.
Proof.
  unfold bind, modify. destruct (m s) as [[e|a] s1]; intros H.
  - discriminate.
  - exists s1. congruence.
Qed.

Lemma stop_mission_try_clears o s u s' :
  stop_mission_try o s = (inr u, s') -> is_running s' = false.
Proof.
  unfold stop_mission_try. intros H.
  set (m1 := modify (set_flag true)) in H.
  set (m2 := when has_process _) in H.
  set (m3 := when thread_alive _) in H.
  assert (Hassoc : (m1 ;; m2 ;; m3 ;; modify (set_running false)) s
                   = ((m1 ;; m2 ;; m3) ;; modify (set_running false)) s).
  { unfold bind. destruct (m1 s) as [[?|?] ?]; [reflexivity|].
    destruct (m2 s0) as [[?|?] ?]; [reflexivity|].
    destruct (m3 s1) as [[?|?] ?]; reflexivity. }
  rewrite Hassoc in H. apply bind_modify_last in H.
  destruct H as [s1 ->]. reflexivity.
Qed.

(** C5.  A [stop_mission] call made while a worker is alive never raises:
    it answers with a body in which [was_running] is true.  When no step
    of it throws the status is "success" and it returns with [is_running]
    false; when a step throws the exception [e], the status is "error"
    with the message of [e], and it returns with [is_running] false and
    the stop flag set. *)
Theorem stop_mission_never_raises (o : StopOracle) (s : Sys) :
  thread_alive s = true ->
  exists body,
    fst (stop_mission o s) = HTTP200 body /\
    Stop.was_running body = true /\
    is_running (snd (stop_mission o s)) = false /\
    match fst (stop_mission_try o s) with
    | inr _ =>
        body = Stop.mk "success" "Mission stopped successfully" true
    | inl e =>
        body = Stop.mk "error" ("Error stopping mission: " ++ str e) true /\
        stop_mission_flag (snd (stop_mission o s)) = true
    end.
Proof.
  intros Halive. unfold stop_mission. rewrite Halive. simpl.
  destruct (stop_mission_try o s) as [[e|u] s'] eqn:Htry; simpl.
  - eexists. repeat split.
  - eexists. repeat split. eapply stop_mission_try_clears. exact Htry.
Qed.

Lemma stop_mission_never_raises_witness :
  let s := worker_steps 7 (snd (start_mission launch_ok initial)) in
  exists body,
    fst (stop_mission handle_vanishes s) = HTTP200 body /\
    Stop.status body = "error" /\
    Stop.was_running body = true /\
    is_running (snd (stop_mission handle_vanishes s)) = false /\
    stop_mission_flag (snd (stop_mission handle_vanishes s)) = true.
Proof.
  intros s.
  destruct (stop_mission_never_raises handle_vanishes s eq_refl)
    as (body & H1 & H2 & H3 & H4).
  exists body. split; [exact H1|].
  assert (Htry : fst (stop_mission_try handle_vanishes s)
                 = inl (none_has_no_attribute "terminate"))
    by reflexivity.
  rewrite Htry in H4. destruct H4 as [-> H5].
  repeat split; assumption.
Defined.

(** C7.  A [stop_mission] call made with no worker alive answers success
    with [was_running] false and changes nothing: flags, handle, buffer
    and trace are those of before, the status stays "idle", and calling
    it again gives the same. *)
Theorem stop_mission_idle (o o' : StopOracle) (s : Sys) :
  thread_alive s = false ->
  stop_mission o s
  = (HTTP200 (Stop.mk "success" "No mission currently running" false), s) /\
  stop_mission o' (snd (stop_mission o s)) = stop_mission o s /\
  (exists b, fst (mission_status (snd (stop_mission o s))) = HTTP200 b
             /\ Status.status b = "idle").
Proof.
  intros Hdead.
  assert (Hstop : forall o, stop_mission o s
    = (HTTP200 (Stop.mk "success" "No mission currently running" false), s)).
  { intros o1. unfold stop_mission. rewrite Hdead. reflexivity. }
  rewrite !Hstop. cbn [snd]. rewrite ?Hstop. repeat split.
  unfold mission_status. rewrite Hdead. eexists. split; reflexivity.
Qed.

Lemma stop_mission_idle_witness :
  stop_mission handle_vanishes initial
  = (HTTP200 (Stop.mk "success" "No mission currently running" false), initial).
Proof.
  apply (proj1 (stop_mission_idle handle_vanishes handle_vanishes initial eq_refl)).
Defined.

(** ** mission_status *)

(** C6.  [mission_status] answers from the present flags: "running" with
    the worker alive and no stop requested, "stopping" with the worker
    alive and a stop requested, "idle" otherwise; it reports the flags as
    they are, the size of the buffer and its last ten entries (all of
    them when there are fewer), and leaves the state as it was. *)
Theorem mission_status_spec (s : Sys) :
  exists b,
    mission_status s = (HTTP200 b, s) /\
    Status.status b
    = (match thread_alive s, stop_mission_flag s with
       | true, false => "running"
       | true, true => "stopping"
       | false, _ => "idle"
       end) /\
    Status.thread_alive b = thread_alive s /\
    Status.stop_requested b = stop_mission_flag s /\
    Status.is_running b = is_running s /\
    Status.total_logs b = List.length (logs s) /\
    Status.recent_logs b = lastn 10 (logs s) /\
    List.length (Status.recent_logs b) = Nat.min 10 (List.length (logs s)) /\
    (exists older, logs s = (older ++ Status.recent_logs b)%list).
Proof.
  assert (Hrecent :
    (if 10 <? List.length (logs s) then Py.slice_from (-10) (logs s)
     else logs s) = lastn 10 (logs s)).
  { destruct (Nat.ltb_spec 10 (List.length (logs s))) as [H|H].
    - apply (slice_from_neg (logs s) 10). lia.
    - symmetry. apply lastn_all. exact H. }
  unfold mission_status. rewrite Hrecent.
  eexists. split; [reflexivity|].
  cbn [Status.status Status.thread_alive Status.stop_requested
       Status.is_running Status.total_logs Status.recent_logs].
  repeat split.
  - apply lastn_length.
  - apply lastn_suffix.
Qed.

(** ** One line of the child's output *)



(** ** get_logs *)

Lemma clean_length l : List.length (clean l) <= List.length l.
Proof. unfold clean. rewrite length_map. apply filter_length_le. Qed.

Lemma runtime_slice (n : Z) (l : list string) :
  (0 < n)%Z ->
  (if (n <? Z.of_nat (List.length l))%Z then Py.slice_from (- n) l else l)
  = lastn (Z.to_nat n) l.
Proof.
  intros Hn. destruct (Z.ltb_spec n (Z.of_nat (List.length l))) as [H|H].
  - apply slice_from_neg. exact Hn.
  - symmetry. apply lastn_all. lia.
Qed.

(** C9, as stated, fails: with the log file missing the reply carries a
    placeholder in place of file lines and no count of the runtime
    entries. *)
Lemma get_logs_file_missing :
  exists b,
    get_logs 5 NotFound seven_logs = (HTTP200 b, seven_logs) /\
    Logs.logs b = ["Log file not found"] /\
    Logs.total_runtime_logs b = None /\
    List.length (Logs.runtime_logs b) = 5.
Proof. eexists. repeat split. Qed.

(** C9, amended.  For a positive line count [n] (100 when the query gives
    none), the reply to GET /logs has at most [n] file entries and at most
    [n] runtime entries, the latter being the last [n] of the buffer (all
    of it when shorter).  When the log file is read, the file entries are
    the last [n] lines of the file, stripped and without the blank ones,
    and the reply carries the number of lines of the file and the number
    of entries of the buffer.  When the file is missing or cannot be read,
    the file entries are a single message saying so and [total_lines] is
    0. *)
Theorem get_logs_positive (n : Z) (f : LogFile) (s : Sys) :
  (0 < n)%Z ->
  get_logs_route None f s = get_logs 100 f s /\
  get_logs_route (Some n) f s = get_logs n f s /\
  exists b,
    get_logs n f s = (HTTP200 b, s) /\
    List.length (Logs.logs b) <= Z.to_nat n /\
    List.length (Logs.runtime_logs b) <= Z.to_nat n /\
    Logs.runtime_logs b = lastn (Z.to_nat n) (logs s) /\
    match f with
    | Contents all_lines =>
        Logs.logs b = clean (lastn (Z.to_nat n) all_lines) /\
        Logs.total_lines b = List.length all_lines /\
        Logs.total_runtime_logs b = Some (List.length (logs s))
    | NotFound =>
        Logs.logs b = ["Log file not found"] /\
        Logs.total_lines b = 0
    | Unreadable e =>
        Logs.logs b = ["Error reading logs: " ++ str e] /\
        Logs.total_lines b = 0
    end.
Proof.
  intros Hn. split; [reflexivity|]. split; [reflexivity|].
  unfold get_logs. destruct f as [|e|all_lines].
  - eexists. split; [reflexivity|].
    cbn [Logs.logs Logs.runtime_logs Logs.total_lines Logs.total_runtime_logs].
    rewrite slice_from_neg by exact Hn. rewrite lastn_length.
    repeat split; simpl; lia.
  - eexists. split; [reflexivity|].
    cbn [Logs.logs Logs.runtime_logs Logs.total_lines Logs.total_runtime_logs].
    assert (H : match logs s with
                | [] => []
                | _ :: _ => Py.slice_from (- n) (logs s)
                end = lastn (Z.to_nat n) (logs s)).
    { destruct (logs s) eqn:Hl; [reflexivity|].
      apply slice_from_neg. exact Hn. }
    rewrite H, lastn_length. repeat split; simpl; lia.
  - eexists. split; [reflexivity|].
    cbn [Logs.logs Logs.runtime_logs Logs.total_lines Logs.total_runtime_logs].
    rewrite !runtime_slice by exact Hn.
    repeat split.
    + etransitivity; [apply clean_length|]. rewrite lastn_length. lia.
    + rewrite lastn_length. lia.
Qed.

Lemma get_logs_positive_witness :
  exists b,
    get_logs 5 (Contents ["a
"; "
"; "b
"; "c
"; "d
"; "  e
"; "f
"]) seven_logs = (HTTP200 b, seven_logs) /\
    Logs.logs b = ["b"; "c"; "d"; "e"; "f"] /\
    Logs.total_lines b = 7 /\
    List.length (Logs.runtime_logs b) = 5 /\
    Logs.total_runtime_logs b = Some 7.
Proof.
  destruct (get_logs_positive 5 (Contents ["a
"; "
"; "b
"; "c
"; "d
"; "  e
"; "f
"]) seven_logs ltac:(lia)) as (_ & _ & b & H1 & _ & _ & H4 & H5 & H6 & H7).
  exists b. split; [exact H1|].
  rewrite H5, H6, H7, H4. repeat split.
Defined.



(** * Further properties *)

(** ** Blank lines *)

Lemma truthy_lstrip s : Py.truthy (Py.lstrip s) = negb (isblank s).
Proof.
  induction s as [|c s IH]; [reflexivity|].
  cbn [Py.lstrip isblank]. destruct (Py.isspace c); [exact IH | reflexivity].
Qed.

Lemma isblank_lstrip s : isblank (Py.lstrip s) = isblank s.
Proof.
  induction s as [|c s IH]; [reflexivity|].
  cbn [Py.lstrip]. destruct (Py.isspace c) eqn:Hc; [|reflexivity].
  cbn [isblank]. rewrite Hc. exact IH.
Qed.

Lemma isblank_app a b : isblank (a ++ b) = isblank a && isblank b.
Proof.
  induction a as [|c a IH]; [reflexivity|].
  cbn [append isblank]. rewrite IH. apply andb_assoc.
Qed.

Lemma isblank_rev s : isblank (Py.rev s) = isblank s.
Proof.
  induction s as [|c s IH]; [reflexivity|].
  cbn [Py.rev]. rewrite isblank_app, IH. cbn [isblank].
  rewrite andb_true_r. apply andb_comm.
Qed.

Lemma truthy_rev s : Py.truthy (Py.rev s) = Py.truthy s.
Proof.
  destruct s as [|c s]; [reflexivity|].
  cbn [Py.rev]. destruct (Py.rev s); reflexivity.
Qed.

Lemma truthy_strip_not_blank (line : string) :
  Py.truthy (Py.strip line) = negb (isblank line).
Proof.
  unfold Py.strip, Py.rstrip.
  rewrite truthy_rev, truthy_lstrip, isblank_rev, isblank_lstrip.
  reflexivity.
Qed.

(** X1.  The test of lines 84 and 271, [if line.strip()], passes exactly
    for the lines that hold a character that is not whitespace: the loop
    goes on to log such a line and skips the others, and line 271 keeps
    the stripped text of such a line and drops the others. *)
Theorem strip_truthy_iff_not_blank (line : string) (now : datetime)
    (e : MissionEnv) (s : Sys) :
  Py.truthy (Py.strip line) = negb (isblank line) /\
  fst (fst (body_step (L84 line now) e s))
  = Goto (if isblank line then Lread else L85 line now) /\
  clean [line] = (if isblank line then [] else [Py.strip line]).
Proof.
  pose proof (truthy_strip_not_blank line) as H.
  split; [exact H|]. unfold clean. cbn [body_step filter map].
  rewrite H. destruct (isblank line); split; reflexivity.
Qed.

(** ** What the buffer holds *)

Lemma Forall_lastn {A} (P : A -> Prop) k (l : list A) :
  Forall P l -> Forall P (lastn k l).
Proof.
  intros H. destruct (lastn_suffix k l) as [d Hd].
  rewrite Hd in H. apply Forall_app in H. apply H.
Qed.

Lemma worker_step_entries_inv s : entries_inv s -> entries_inv (worker_step s).
Proof.
  open_state s p; [|trivial].
  unfold entries_inv, pc_of, worker_step, run_mission_background.
  destruct p; try (by_cases; tauto).
  - (* line 84 *)
    cbn. rewrite truthy_strip_not_blank.
    destruct (isblank line) eqn:Hb; cbn; tauto.
  - (* lines 85-86 *)
    cbn. intros [H Hl]. split; [|exact I].
    unfold logs_append. apply Forall_app. split; [exact H|].
    constructor; [|constructor]. exists now, line. split; [reflexivity|exact Hl].
  - (* lines 90-91 *)
    cbn. intros [H _]. split; [|exact I].
    rewrite logs_trim_lastn. apply Forall_lastn. exact H.
Qed.

Lemma step_entries_inv s s' : step s s' -> entries_inv s -> entries_inv s'.
Proof.
  intros H. destruct H as [s|i s|s Hdead|p e s Hdead Hp].
  - apply worker_step_entries_inv.
  - destruct s as [[[q e]|] flag cp ir lg tr]; destruct i; exact (fun H => H).
  - destruct s as [[[q e]|] flag cp ir lg tr]; exact (fun H => H).
  - unfold entries_inv, pc_of. cbn. intros [H _]. split; [exact H|].
    destruct Hp as [-> | ->]; exact I.
Qed.

(** X2.  At every point of every execution, each entry of the buffer is
    the clock reading of line 85, " - " and the stripped text of an output
    line that was not blank. *)
Theorem buffer_holds_entries (s : Sys) :
  reachable s ->
  forall x, In x (logs s) ->
    exists now line,
      x = strftime now ++ " - " ++ Py.strip line /\
      Py.truthy (Py.strip line) = true.
Proof.
  intros Hs.
  assert (H : entries_inv s).
  { induction Hs as [|s s' _ IH Hstep].
    - split; [constructor | exact I].
    - eapply step_entries_inv; eassumption. }
  destruct H as [H _]. intros x Hx.
  rewrite Forall_forall in H. destruct (H x Hx) as (now & l & -> & Hl).
  exists now, l. split; [reflexivity|].
  rewrite truthy_strip_not_blank, Hl. reflexivity.
Qed.

Lemma buffer_holds_entries_witness :
  exists now line,
    "2024-03-07 09:05:00 - tracking herd"
    = strftime now ++ " - " ++ Py.strip line /\
    Py.truthy (Py.strip line) = true.
Proof.
  apply (buffer_holds_entries (worker_steps 4 line_in_hand)).
  - apply reachable_worker_steps, reachable_worker_steps,
      reachable_start_mission, reach_initial.
  - vm_compute. left. reflexivity.
Defined.

(** ** The buffer moves like a window *)









(** ** Computations that keep an invariant *)

Section Keeps.
Variable I : Sys -> Prop.

Lemma keeps_bind {A B} (m : M A) (k : A -> M B) :
  keeps I m -> (forall a, keeps I (k a)) -> keeps I (bind m k).
Proof.
  intros Hm Hk s Hs. unfold bind. specialize (Hm s Hs).
  destruct (m s) as [[e|a] s']; simpl in *; [exact Hm|].
  apply Hk. exact Hm.
Qed.

Lemma keeps_when c (m : M unit) : keeps I m -> keeps I (when c m).
Proof.
  intros Hm s Hs. unfold when. destruct (c s); [apply Hm|]; exact Hs.
Qed.

Lemma keeps_try {A} (m h : M A) catches :
  keeps I m -> keeps I h -> keeps I (try_except m catches h).
Proof.
  intros Hm Hh s Hs. unfold try_except. specialize (Hm s Hs).
  destruct (m s) as [[e|a] s']; simpl in *; [|exact Hm].
  destruct (catches e); [apply Hh|]; exact Hm.
Qed.

Hypothesis I_worker : forall s, I s -> I (worker_step s).

Lemma keeps_worker_steps n : forall s, I s -> I (worker_steps n s).
Proof.
  induction n as [|n IH]; intros s H; simpl; [exact H|].
  apply IH, I_worker, H.
Qed.

Hypothesis I_signal : forall p s,
  I s -> current_process s = Some p ->
  I (emit (EvTerminate p) s) /\ I (emit (EvKill p) s).

Lemma keeps_process_call name ev c :
  (ev = None \/ ev = Some EvTerminate \/ ev = Some EvKill) ->
  keeps I (process_call name ev c).
Proof.
  intros Hev s Hs. unfold process_call.
  pose proof (keeps_worker_steps (before c) s Hs) as H1.
  destruct (current_process (worker_steps (before c) s)) as [p|] eqn:Hp;
    [|exact H1].
  destruct (I_signal p _ H1 Hp) as [Ht Hk].
  assert (H2 : I (worker_steps (during c)
                    match ev with
                    | Some f => emit (f p) (worker_steps (before c) s)
                    | None => worker_steps (before c) s
                    end)).
  { apply keeps_worker_steps.
    destruct Hev as [-> | [-> | ->]]; assumption. }
  destruct (raises c); exact H2.
Qed.

Hypothesis I_set_stop : forall s, thread_alive s = true -> I s -> I (set_flag true s).
Hypothesis I_set_stop_after : forall s, I s -> I (set_flag true (set_running false s)).
Hypothesis I_clear_running : forall s, I s -> I (set_running false s).

(** The part of [stop_mission_try] after the flag is set. *)
Lemma keeps_stop_calls o :
  keeps I (when has_process
             (process_call "terminate" (Some EvTerminate) (o_terminate o) ;;
              try_except (process_call "wait" None (o_wait5 o))
                         is_TimeoutExpired
                         (process_call "kill" (Some EvKill) (o_kill o) ;;
                          process_call "wait" None (o_wait o)))).
Proof.
  apply keeps_when.
  repeat first
    [ apply keeps_bind; [|intros _]
    | apply keeps_try
    | apply keeps_process_call; tauto ].
Qed.

Lemma keeps_join n : keeps I (when thread_alive (modify (worker_steps n))).
Proof. apply keeps_when. intros s Hs. apply keeps_worker_steps. exact Hs. Qed.

Lemma stop_mission_keeps o s : I s -> I (snd (stop_mission o s)).
Proof.
  intros Hs. unfold stop_mission.
  destruct (thread_alive s) eqn:Halive; simpl; [|exact Hs].
  assert (H : I (snd (stop_mission_try o s))).
  { unfold stop_mission_try.
    assert (H1 : I (set_flag true s)) by (apply I_set_stop; assumption).
    unfold bind at 1. unfold modify at 1.
    revert H1. generalize (set_flag true s). intros s1 H1.
    apply (keeps_bind _ (fun _ => _ ;; modify (set_running false)));
      [apply keeps_stop_calls | intros _ | exact H1].
    apply keeps_bind; [apply keeps_join | intros _].
    intros s2 H2. apply I_clear_running. exact H2. }
  destruct (stop_mission_try o s) as [[e|u] s']; simpl in *; [|exact H].
  apply I_set_stop_after. exact H.
Qed.

Lemma shutdown_keeps o s : I s -> I (snd (lifespan_shutdown o s)).
Proof.
  intros Hs. unfold lifespan_shutdown, when.
  destruct (thread_alive s) eqn:Halive; [|exact Hs].
  assert (H1 : I (set_flag true s)) by (apply I_set_stop; assumption).
  unfold bind at 1. unfold modify at 1.
  revert H1. generalize (set_flag true s). intros s1 H1.
  apply (keeps_bind _ (fun _ => modify (worker_steps (sd_join o)) ;;
                                modify (set_running false)));
    [| intros _ | exact H1].
  - apply keeps_when, keeps_process_call. tauto.
  - apply keeps_bind; [|intros _].
    + intros s2 H2. apply keeps_worker_steps. exact H2.
    + intros s2 H2. apply I_clear_running. exact H2.
Qed.

End Keeps.

(** ** Children and signals *)

Ltac count_events :=
  unfold spawn_inv, popens, thread_starts, before_spawn, pc_of in *;
  cbn in *; rewrite ?filter_app, ?length_app in *; cbn in *; try lia.

Lemma worker_step_spawn_inv s : spawn_inv s -> spawn_inv (worker_step s).
Proof.
  open_state s p; [|trivial].
  unfold worker_step, run_mission_background.
  destruct p; by_cases; intros H; count_events.
Qed.

Lemma dead_before_spawn s : thread_alive s = false -> before_spawn s = 0.
Proof.
  unfold thread_alive, is_alive, before_spawn, pc_of.
  destruct (mission_thread s) as [[p e]|]; [|reflexivity].
  destruct p; simpl; (discriminate || reflexivity).
Qed.

Lemma start_mission_spawn_inv o s :
  spawn_inv s -> spawn_inv (snd (start_mission o s)).
Proof.
  intros H. unfold start_mission.
  destruct (thread_alive s) eqn:Halive; simpl; [exact H|].
  pose proof (dead_before_spawn s Halive) as H0.
  destruct (start_raises o); simpl.
  - destruct s; count_events.
  - apply keeps_worker_steps; [apply worker_step_spawn_inv|].
    destruct s; count_events.
Qed.

Lemma served_spawn_inv s : served s -> spawn_inv s.
Proof.
  induction 1 as [|s _ IH|o s _ IH|o s _ IH|o s _ IH].
  - unfold spawn_inv. cbn. lia.
  - apply worker_step_spawn_inv, IH.
  - apply start_mission_spawn_inv, IH.
  - apply stop_mission_keeps; try exact IH.
    + apply worker_step_spawn_inv.
    + intros p [] H _; split; count_events.
    + intros [] _ H; count_events.
    + intros [] H; count_events.
    + intros [] H; count_events.
  - apply shutdown_keeps; try exact IH.
    + apply worker_step_spawn_inv.
    + intros p [] H _; split; count_events.
    + intros [] _ H; count_events.
    + intros [] H; count_events.
Qed.

(** X4.  However requests, shutdown and worker interleave, the service
    never spawns more children than it started worker threads: a worker
    spawns at most one child. *)
Theorem one_child_per_worker (s : Sys) :
  served s -> popens s <= thread_starts s.
Proof.
  intros H. apply served_spawn_inv in H. unfold spawn_inv in H. lia.
Qed.

Ltac in_trace :=
  unfold signals_inv in *; cbn in *;
  repeat split; intros;
  repeat match goal with
         | H : _ /\ _ |- _ => destruct H
         | H : _ \/ _ |- _ => destruct H
         | H : False |- _ => destruct H
         | H : In _ (_ ++ _)%list |- _ => apply in_app_iff in H; cbn in H
         | H : Some _ = Some _ |- _ => injection H as <-
         | H : EvPopen _ = EvPopen _ |- _ => injection H as <-
         | H : EvTerminate _ = EvTerminate _ |- _ => injection H as <-
         | H : EvKill _ = EvKill _ |- _ => injection H as <-
         | |- In _ (_ ++ _)%list => apply in_app_iff; cbn
         end;
  try discriminate; try solve [ eauto 6 ].

Lemma worker_step_signals_inv s : signals_inv s -> signals_inv (worker_step s).
Proof.
  open_state s p; [|trivial].
  unfold worker_step, run_mission_background.
  destruct p; by_cases; intros H; in_trace.
Qed.

Lemma start_mission_signals_inv o s :
  signals_inv s -> signals_inv (snd (start_mission o s)).
Proof.
  intros H. unfold start_mission.
  destruct (thread_alive s); simpl; [exact H|].
  destruct (start_raises o); simpl.
  - destruct s; in_trace.
  - apply keeps_worker_steps; [apply worker_step_signals_inv|].
    destruct s; in_trace.
Qed.

Lemma served_signals_inv s : served s -> signals_inv s.
Proof.
  induction 1 as [|s _ IH|o s _ IH|o s _ IH|o s _ IH].
  - unfold signals_inv. cbn. split; intros p H; [discriminate | tauto].
  - apply worker_step_signals_inv, IH.
  - apply start_mission_signals_inv, IH.
  - apply stop_mission_keeps; try exact IH.
    + apply worker_step_signals_inv.
    + intros p [] H Hp; split; in_trace.
    + intros [] _ H; in_trace.
    + intros [] H; in_trace.
    + intros [] H; in_trace.
  - apply shutdown_keeps; try exact IH.
    + apply worker_step_signals_inv.
    + intros p [] H Hp; split; in_trace.
    + intros [] _ H; in_trace.
    + intros [] H; in_trace.
Qed.

(** X5.  However requests, shutdown and worker interleave, [terminate()]
    and [kill()] are only ever called on a child this service spawned, and
    the handle in [current_process] is one of those children. *)
Theorem signals_reach_own_children (s : Sys) :
  served s ->
  (forall p, In (EvTerminate p) (trace s) \/ In (EvKill p) (trace s) ->
             In (EvPopen p) (trace s)) /\
  (forall p, current_process s = Some p -> In (EvPopen p) (trace s)).
Proof.
  intros H. apply served_signals_inv in H. destruct H as [H1 H2].
  split; assumption.
Qed.

(** ** Whole runs of the mission loop *)

Lemma worker_step_dead s : thread_alive s = false -> worker_step s = s.
Proof.
  destruct s as [[[p e]|] flag cp ir lg tr]; [|reflexivity].
  unfold thread_alive, is_alive. simpl.
  destruct p; try discriminate; reflexivity.
Qed.

Lemma worker_steps_dead n : forall s,
  thread_alive s = false -> worker_steps n s = s.
Proof.
  induction n as [|n IH]; intros s H; simpl; [reflexivity|].
  rewrite worker_step_dead by exact H. apply IH, H.
Qed.

Lemma loop_cost_cons x ls :
  loop_cost (x :: ls) = (if non_blankb x then 5 else 3) + loop_cost ls.
Proof. reflexivity. Qed.

Lemma loop_cost_le ls : loop_cost ls <= 5 * List.length ls.
Proof.
  induction ls as [|x ls IH]; [unfold loop_cost; simpl; lia|].
  rewrite loop_cost_cons. cbn [List.length].
  destruct (non_blankb x); lia.
Qed.

(** The loop over lines of any kind: the blank ones are skipped. *)
Lemma stream_all ls : forall rest e cp ir lg tr,
  Forall (fun x => Py.truthy (fst x) = true) ls ->
  stdout e = (map read_line ls ++ rest)%list ->
  worker_steps (loop_cost ls)
    (mk_sys (Some (mk_thread Lread e)) false cp ir lg tr)
  = mk_sys (Some (mk_thread Lread (set_stdout rest e))) false cp ir
           (append_logs (map entry_of (filter non_blankb ls)) lg) tr.
Proof.
  induction ls as [|[l now] ls IH]; intros rest e cp ir lg tr Hne Hout.
  - simpl in *. destruct e; simpl in *. subst. reflexivity.
  - inversion Hne as [|x xs Hl Hls]; subst. cbn [fst] in Hl.
    rewrite loop_cost_cons, worker_steps_add. cbn [filter].
    unfold non_blankb at 1 2. cbn [fst].
    pose proof (truthy_strip_not_blank l) as Hstrip.
    destruct (isblank l) eqn:Hb; cbn [negb] in *.
    + assert (Hstep :
        worker_steps 3 (mk_sys (Some (mk_thread Lread e)) false cp ir lg tr)
        = mk_sys (Some (mk_thread Lread
                          (set_stdout (map read_line ls ++ rest) e)))
                 false cp ir lg tr).
      { simpl. unfold worker_step at 3, run_mission_background. simpl.
        rewrite Hout. simpl. rewrite Hl. simpl.
        unfold worker_step at 2, run_mission_background. simpl.
        unfold worker_step, run_mission_background. simpl.
        rewrite Hstrip. reflexivity. }
      rewrite Hstep.
      rewrite (IH rest (set_stdout (map read_line ls ++ rest) e) cp ir lg tr
                  Hls) by (destruct e; reflexivity).
      destruct e; reflexivity.
    + assert (Hstep :
        worker_steps 5 (mk_sys (Some (mk_thread Lread e)) false cp ir lg tr)
        = mk_sys (Some (mk_thread Lread
                          (set_stdout (map read_line ls ++ rest) e)))
                 false cp ir (append_log (log_entry now l) lg) tr).
      { simpl. unfold worker_step at 5, run_mission_background. simpl.
        rewrite Hout. simpl. rewrite Hl. simpl.
        unfold worker_step at 4, run_mission_background. simpl.
        unfold worker_step at 3, run_mission_background. simpl.
        rewrite Hstrip. simpl.
        unfold worker_step at 2, run_mission_background. simpl.
        unfold worker_step, run_mission_background. simpl.
        reflexivity. }
      rewrite Hstep.
      rewrite (IH rest (set_stdout (map read_line ls ++ rest) e) cp ir
                  (append_log (log_entry now l) lg) tr Hls)
        by (destruct e; reflexivity).
      destruct e; reflexivity.
Qed.

(** X6.  A mission whose launch succeeds, whose child prints the lines
    [ls] and exits (none of them the empty string, which [readline] keeps
    for the end of the output), and which nobody stops, runs to its end
    with: the
    buffer extended by one entry for each line that is not blank, in the
    order printed, and cut to its last 1000; one child spawned and never
    signalled; [is_running], the handle and the stop flag cleared. *)
Theorem mission_logs_output (e : MissionEnv) (p : Popen)
    (ls : list (string * datetime)) (cp : option Popen) (ir : bool)
    (lg : list string) (tr : list event) :
  mkdir_raises e = None -> script_exists e = true ->
  chmod_raises e = None -> popen_result e = inr p ->
  wait_raises e = None ->
  stdout e = map read_line ls ->
  Forall (fun x => Py.truthy (fst x) = true) ls ->
  List.length lg <= 1000 ->
  let s' := worker_steps (steps_bound e)
              (mk_sys (Some (mk_thread L42 e)) false cp ir lg tr) in
  pc_of s' = Some Finished /\
  logs s' = lastn 1000 (lg ++ map entry_of (filter non_blankb ls)) /\
  trace s' = (tr ++ [EvPopen p])%list /\
  is_running s' = false /\ current_process s' = None /\
  stop_mission_flag s' = false.
Proof.
  intros Hmk Hse Hch Hpo Hwa Hout Hne Hlg s'.
  assert (Hrun : s' = mk_sys (Some (mk_thread Finished (set_stdout [] e)))
                             false None false
                             (append_logs (map entry_of (filter non_blankb ls)) lg)
                             (tr ++ [EvPopen p])%list).
  { subst s'. unfold steps_bound. rewrite Hout, length_map.
    pose proof (loop_cost_le ls) as Hcost.
    replace (5 * List.length ls + 13)
      with (7 + (loop_cost ls + (5 + (5 * List.length ls + 1 - loop_cost ls))))
      by lia.
    rewrite worker_steps_add.
    assert (H7 :
      worker_steps 7 (mk_sys (Some (mk_thread L42 e)) false cp ir lg tr)
      = mk_sys (Some (mk_thread Lread e)) false (Some p) true lg
               (tr ++ [EvPopen p])%list).
    { destruct e as [mk se ch po so te wa]. simpl in *. subst.
      reflexivity. }
    rewrite H7, worker_steps_add.
    rewrite (stream_all ls [] e (Some p) true lg _ Hne)
      by (rewrite app_nil_r; exact Hout).
    rewrite worker_steps_add.
    assert (H5 : forall l',
      worker_steps 5
        (mk_sys (Some (mk_thread Lread (set_stdout [] e))) false (Some p)
                true l' (tr ++ [EvPopen p])%list)
      = mk_sys (Some (mk_thread Finished (set_stdout [] e))) false None false
               l' (tr ++ [EvPopen p])%list).
    { intros l'. destruct e as [mk se ch po so te wa]. simpl in *. subst.
      reflexivity. }
    rewrite H5. apply worker_steps_dead. reflexivity. }
  rewrite Hrun. cbn. repeat split.
  apply append_logs_lastn. exact Hlg.
Qed.

(** X7.  When a stop is already requested at the worker's first statement,
    or the launch fails before a child exists (the directory cannot be
    made, the script is missing or cannot be made executable, the spawn
    raises), the worker ends having spawned and signalled nothing and
    logged nothing, with [is_running], the handle and the stop flag
    cleared. *)
Theorem failed_launch_leaves_no_child (e : MissionEnv) (flag : bool)
    (cp : option Popen) (ir : bool) (lg : list string) (tr : list event) :
  flag = true \/ launch_fails e = true ->
  worker_steps (steps_bound e)
    (mk_sys (Some (mk_thread L42 e)) flag cp ir lg tr)
  = mk_sys (Some (mk_thread Finished e)) false None false lg tr.
Proof.
  intros H. unfold steps_bound.
  replace (5 * List.length (stdout e) + 13)
    with (13 + 5 * List.length (stdout e)) by lia.
  rewrite worker_steps_add.
  assert (H13 :
    worker_steps 13 (mk_sys (Some (mk_thread L42 e)) flag cp ir lg tr)
    = mk_sys (Some (mk_thread Finished e)) false None false lg tr).
  { destruct e as [mk se ch po so te wa]. unfold launch_fails in H.
    cbn in H. destruct flag.
    - reflexivity.
    - destruct H as [H|H]; [discriminate|].
      destruct mk; [reflexivity|]. destruct se; [|reflexivity].
      destruct ch; [reflexivity|]. destruct po; [reflexivity|].
      discriminate. }
  rewrite H13. apply worker_steps_dead. reflexivity.
Qed.

(** ** A stop request takes effect *)

Lemma interfere_all_flag l : forall s,
  stop_mission_flag s = true -> stop_mission_flag (interfere_all l s) = true.
Proof.
  induction l as [|i l IH]; intros s H; simpl; [exact H|].
  apply IH. destruct i; simpl; (exact H || reflexivity).
Qed.

Lemma run_worker_dead fuel sched s :
  thread_alive s = false -> run_worker fuel sched s = s.
Proof. intros H. destruct fuel; simpl; [|rewrite H]; reflexivity. Qed.

Lemma run_worker_thread_some n : forall sched s,
  mission_thread s <> None -> mission_thread (run_worker n sched s) <> None.
Proof.
  induction n as [|n IH]; intros sched s Hs; simpl; [exact Hs|].
  destruct (thread_alive s); [|exact Hs]. apply IH.
  unfold worker_step. rewrite interfere_all_thread.
  destruct (mission_thread s) as [t0|]; [|congruence].
  destruct (run_mission_background t0 _); simpl. discriminate.
Qed.

Lemma worker_step_stopped s :
  thread_alive s = true -> stop_mission_flag s = true ->
  stopped_left (worker_step s) < stopped_left s
  /\ unread s <= unread (worker_step s)
  /\ (thread_alive (worker_step s) = true ->
      stop_mission_flag (worker_step s) = true).
Proof.
  open_state s p; [|discriminate].
  unfold thread_alive, is_alive, unread, stopped_left, remaining_stopped,
    worker_step, run_mission_background.
  destruct p; simpl; try discriminate; intros _ Hflag; subst;
    by_cases; repeat split; try lia; try discriminate; try reflexivity.
Qed.

Lemma run_worker_stopped fuel : forall sched s,
  thread_alive s = true -> stop_mission_flag s = true ->
  stopped_left s <= fuel ->
  thread_alive (run_worker fuel sched s) = false /\
  unread s <= unread (run_worker fuel sched s).
Proof.
  induction fuel as [|fuel IH]; intros sched s Halive Hflag Hfuel.
  - destruct (worker_step_stopped s Halive Hflag) as (H & _). lia.
  - simpl. rewrite Halive.
    set (s1 := interfere_all (hd [] sched) s).
    assert (Hthread : mission_thread s1 = mission_thread s)
      by apply interfere_all_thread.
    assert (Halive1 : thread_alive s1 = true)
      by (unfold thread_alive; rewrite Hthread; exact Halive).
    assert (Hflag1 : stop_mission_flag s1 = true)
      by (apply interfere_all_flag; exact Hflag).
    assert (Hunread : unread s1 = unread s)
      by (unfold unread; rewrite Hthread; reflexivity).
    destruct (worker_step_stopped s1 Halive1 Hflag1) as (Hless & Hun & Hkeep).
    unfold stopped_left in Hless at 2. rewrite Hthread in Hless.
    fold (stopped_left s) in Hless.
    destruct (thread_alive (worker_step s1)) eqn:Halive2.
    + destruct (IH (tl sched) (worker_step s1) Halive2 (Hkeep eq_refl))
        as [H1 H2]; [lia|].
      split; [exact H1 | lia].
    + rewrite run_worker_dead by exact Halive2.
      split; [exact Halive2 | lia].
Qed.

(** X8.  Once the stop flag is set with a worker alive, the worker ends
    within thirteen of its own statements, whatever the child still has to
    print and whatever the handlers do meanwhile, and it reads at most one
    more line of the child's output. *)
Theorem stop_request_ends_worker (t : Thread) (cp : option Popen)
    (ir : bool) (lg : list string) (tr : list event)
    (sched : list (list interference)) :
  is_alive t = true ->
  let s' := run_worker 13 sched (mk_sys (Some t) true cp ir lg tr) in
  thread_alive s' = false /\
  exists t', mission_thread s' = Some t' /\
    List.length (stdout (env t)) <= S (List.length (stdout (env t'))).
Proof.
  intros Halive s'.
  destruct (run_worker_stopped 13 sched (mk_sys (Some t) true cp ir lg tr))
    as [H1 H2]; [exact Halive | reflexivity | |].
  { unfold stopped_left, remaining_stopped. cbn. destruct (at_pc t); lia. }
  fold s' in H1, H2. split; [exact H1|].
  assert (Hsome : exists t', mission_thread s' = Some t').
  { destruct (mission_thread s') as [t'|] eqn:Heq; [eexists; reflexivity|].
    exfalso. revert Heq. apply run_worker_thread_some. discriminate. }
  destruct Hsome as [t' Ht']. exists t'. split; [exact Ht'|].
  unfold unread in H2. rewrite Ht' in H2. cbn in H2.
  destruct (at_pc t), (at_pc t'); lia.
Qed.

(** ** Stopping and joining *)






Lemma dead_process_inv s :
  reachable s -> thread_alive s = false ->
  current_process s = None /\ is_running s = false.
Proof.
  intros Hs Hdead. pose proof (reachable_process_inv s Hs) as H.
  unfold process_inv, pc_of in H. unfold thread_alive, is_alive in Hdead.
  destruct (mission_thread s) as [[p e]|]; simpl in *; [|exact H].
  destruct p; simpl in *; (discriminate || exact H).
Qed.






(** ** What the replies say *)

(** X11.  In every state the service can reach, the status reply is
    coherent: it reports [is_running] true only with the worker alive and
    a status other than "idle", and with the status "idle" it reports
    [is_running] false. *)
Theorem mission_status_coherent (s : Sys) (b : Status.body) :
  reachable s ->
  body_of (mission_status s) = Some b ->
  (Status.is_running b = true ->
   Status.thread_alive b = true /\ Status.status b <> "idle") /\
  (Status.status b = "idle" ->
   Status.is_running b = false /\ Status.thread_alive b = false).
Proof.
  intros Hs Hb. unfold mission_status, body_of in Hb. cbn [fst] in Hb.
  injection Hb as <-.
  cbn [Status.is_running Status.thread_alive Status.status].
  destruct (thread_alive s) eqn:Halive.
  - split.
    + intros _. split; [reflexivity|].
      destruct (stop_mission_flag s); discriminate.
    + destruct (stop_mission_flag s); discriminate.
  - destruct (dead_process_inv s Hs Halive) as [_ Hir]. rewrite Hir.
    split; [discriminate | intros _; split; reflexivity].
Qed.

(** X12.  The status reply and the logs reply agree on the buffer: the
    [recent_logs] of GET /mission_status are the [runtime_logs] of GET
    /logs?lines=10 whatever the state of the log file, and [total_logs]
    is the [total_runtime_logs] of a reply made from the file. *)
Theorem status_and_logs_agree (s : Sys) (f : LogFile)
    (b : Status.body) (r : Logs.body) :
  body_of (mission_status s) = Some b ->
  body_of (get_logs 10 f s) = Some r ->
  Status.recent_logs b = Logs.runtime_logs r /\
  (forall all_lines, f = Contents all_lines ->
     Logs.total_runtime_logs r = Some (Status.total_logs b)).
Proof.
  intros Hb Hr. unfold mission_status, body_of in Hb. cbn [fst] in Hb.
  injection Hb as <-. cbn [Status.recent_logs Status.total_logs].
  assert (Hten : (if 10 <? List.length (logs s)
                  then Py.slice_from (-10) (logs s) else logs s)
                 = lastn 10 (logs s)).
  { destruct (Nat.ltb_spec 10 (List.length (logs s))) as [H|H].
    - apply (slice_from_neg (logs s) 10). lia.
    - symmetry. apply lastn_all. exact H. }
  rewrite Hten. unfold get_logs, body_of in Hr.
  destruct f as [|e|all_lines]; cbn [fst] in Hr; injection Hr as <-;
    cbn [Logs.runtime_logs Logs.total_runtime_logs].
  - split; [|discriminate]. symmetry. apply (slice_from_neg (logs s) 10). lia.
  - split; [|discriminate].
    destruct (logs s) eqn:Hl; [reflexivity|]. rewrite <- Hl.
    symmetry. apply (slice_from_neg (logs s) 10). lia.
  - split; [|reflexivity]. symmetry. apply (runtime_slice 10). lia.
Qed.

Lemma lastn_lastn {A} (n m : nat) (l : list A) :
  n <= m -> lastn n (lastn m l) = lastn n l.
Proof.
  intros H. unfold lastn at 1 3. rewrite lastn_length. unfold lastn.
  rewrite skipn_skipn. f_equal. lia.
Qed.

(** X13.  Asking GET /logs for more lines only adds older entries: for
    positive counts [n <= m], whatever the state of the log file, the
    runtime entries of the reply for [n] are the last [n] of the runtime
    entries of the reply for [m]. *)
Theorem get_logs_monotone (n m : Z) (f f' : LogFile) (s : Sys)
    (r r' : Logs.body) :
  (0 < n)%Z -> (n <= m)%Z ->
  body_of (get_logs n f s) = Some r ->
  body_of (get_logs m f' s) = Some r' ->
  Logs.runtime_logs r = lastn (Z.to_nat n) (Logs.runtime_logs r') /\
  exists older, Logs.runtime_logs r' = (older ++ Logs.runtime_logs r)%list.
Proof.
  intros Hn Hm Hr Hr'.
  assert (Hshape : forall k g q, (0 < k)%Z ->
            body_of (get_logs k g s) = Some q ->
            Logs.runtime_logs q = lastn (Z.to_nat k) (logs s)).
  { intros k g q Hk Hq. unfold get_logs, body_of in Hq.
    destruct g as [|e|all_lines]; cbn [fst] in Hq; injection Hq as <-;
      cbn [Logs.runtime_logs].
    - apply slice_from_neg. exact Hk.
    - destruct (logs s) eqn:Hl; [reflexivity|]. rewrite <- Hl.
      apply slice_from_neg. exact Hk.
    - apply runtime_slice. exact Hk. }
  rewrite (Hshape n f r Hn Hr), (Hshape m f' r') by (lia || assumption).
  rewrite lastn_lastn by lia. split; [reflexivity|].
  rewrite <- (lastn_lastn (Z.to_nat n) (Z.to_nat m)) by lia.
  apply lastn_suffix.
Qed.

Lemma truthy_app_r a b : Py.truthy b = true -> Py.truthy (a ++ b) = true.
Proof. destruct a; [trivial | reflexivity]. Qed.

Lemma In_slice_from {A} (k : Z) (x : A) (l : list A) :
  In x (Py.slice_from k l) -> In x l.
Proof.
  unfold Py.slice_from. intros H.
  rewrite <- (firstn_skipn (Z.to_nat
    (if (k <? 0)%Z then Z.max 0 (Z.of_nat (List.length l) + k)
     else Z.min k (Z.of_nat (List.length l)))) l).
  apply in_or_app. right. exact H.
Qed.

Lemma reachable_entries_inv s : reachable s -> entries_inv s.
Proof.
  induction 1 as [|s s' _ IH Hstep].
  - split; [constructor | exact I].
  - eapply step_entries_inv; eassumption.
Qed.

(** X14.  In every state the service can reach and for every line count
    and state of the log file, GET /logs returns no empty entry, and each
    file entry of a reply made from the file is the stripped text of a
    line of the file that is not blank. *)
Theorem get_logs_entries (n : Z) (f : LogFile) (s : Sys) (r : Logs.body) :
  reachable s ->
  body_of (get_logs n f s) = Some r ->
  (forall x, In x (Logs.logs r) \/ In x (Logs.runtime_logs r) ->
             Py.truthy x = true) /\
  (forall all_lines x, f = Contents all_lines -> In x (Logs.logs r) ->
     exists line, In line all_lines /\ x = Py.strip line
                  /\ isblank line = false).
Proof.
  intros Hs Hr.
  assert (Hbuf : forall x, In x (logs s) -> Py.truthy x = true).
  { intros x Hx.
    destruct (reachable_entries_inv s Hs) as [H _].
    rewrite Forall_forall in H.
    destruct (H x Hx) as (now & l & -> & _).
    unfold log_entry. apply truthy_app_r. reflexivity. }
  assert (Hclean : forall l x, In x (clean l) ->
            exists line, In line l /\ x = Py.strip line /\ isblank line = false).
  { intros l x Hx. unfold clean in Hx. apply in_map_iff in Hx.
    destruct Hx as (line & <- & Hl). apply filter_In in Hl.
    destruct Hl as [Hl Ht]. exists line. split; [exact Hl|].
    split; [reflexivity|].
    rewrite truthy_strip_not_blank in Ht.
    destruct (isblank line); [discriminate | reflexivity]. }
  unfold get_logs, body_of in Hr.
  destruct f as [|e|all_lines]; cbn [fst] in Hr; injection Hr as <-;
    cbn [Logs.logs Logs.runtime_logs].
  - split; [|discriminate]. intros x [[<-|[]]|Hx]; [reflexivity|].
    apply Hbuf. eapply In_slice_from. exact Hx.
  - split; [|discriminate]. intros x [[<-|[]]|Hx]; [reflexivity|].
    apply Hbuf. destruct (logs s) eqn:Hl; [destruct Hx|]. rewrite <- Hl in *.
    eapply In_slice_from. exact Hx.
  - split.
    + intros x [Hx|Hx].
      * destruct (Hclean _ x Hx) as (line & _ & -> & Hb).
        rewrite truthy_strip_not_blank, Hb. reflexivity.
      * apply Hbuf.
        destruct (n <? Z.of_nat (List.length (logs s)))%Z; [|exact Hx].
        eapply In_slice_from. exact Hx.
    + intros all' x Heq Hx. injection Heq as <-.
      destruct (Hclean _ x Hx) as (line & Hl & -> & Hb).
      exists line. split; [|split; [reflexivity | exact Hb]].
      destruct (n <? Z.of_nat (List.length all_lines))%Z; [|exact Hl].
      eapply In_slice_from. exact Hl.
Qed.

(** ** Starting and stopping *)

Lemma worker_step_flag_clear s :
  stop_mission_flag s = false -> stop_mission_flag (worker_step s) = false.
Proof.
  open_state s p; [|trivial].
  unfold worker_step, run_mission_background.
  destruct p; by_cases; trivial.
Qed.

(** X15.  When [start_mission] answers success, no stop is pending when it
    returns, whatever the worker has done meanwhile: the status then
    reads "running" or "idle", never "stopping". *)
Theorem start_mission_clears_stop (o : StartOracle) (s : Sys)
    (a : Start.body) :
  body_of (start_mission o s) = Some a ->
  let s' := snd (start_mission o s) in
  stop_mission_flag s' = false /\
  exists b, body_of (mission_status s') = Some b /\
            Status.stop_requested b = false /\
            (Status.status b = "running" \/ Status.status b = "idle").
Proof.
  intros Ha s'.
  assert (Hflag : stop_mission_flag s' = false).
  { subst s'. revert Ha. unfold start_mission, body_of.
    destruct (thread_alive s); cbn [fst]; [discriminate|].
    destruct (start_raises o); cbn [fst snd]; [discriminate|]. intros _.
    apply (keeps_worker_steps (fun s => stop_mission_flag s = false)
             worker_step_flag_clear).
    reflexivity. }
  split; [exact Hflag|].
  unfold mission_status, body_of. cbn [fst]. eexists. split; [reflexivity|].
  cbn [Status.stop_requested Status.status]. rewrite Hflag.
  split; [reflexivity|]. destruct (thread_alive s'); [left|right]; reflexivity.
Qed.



(** ** Instances *)

Lemma served_worker_steps n : forall s, served s -> served (worker_steps n s).
Proof.
  induction n as [|n IH]; intros s H; simpl; [exact H|].
  apply IH, served_worker, H.
Qed.

Lemma served_stopped_in_flight : served stopped_in_flight.
Proof.
  apply served_stop, served_worker_steps, served_start, served_initial.
Qed.

Lemma reachable_line_in_hand : reachable line_in_hand.
Proof.
  apply reachable_worker_steps, reachable_start_mission, reach_initial.
Qed.

Lemma one_child_per_worker_witness :
  popens stopped_in_flight <= thread_starts stopped_in_flight.
Proof. apply one_child_per_worker, served_stopped_in_flight. Defined.

Lemma signals_reach_own_children_witness :
  In (EvTerminate 4242) (trace stopped_in_flight) /\
  In (EvPopen 4242) (trace stopped_in_flight).
Proof.
  assert (H : In (EvTerminate 4242) (trace stopped_in_flight))
    by (vm_compute; tauto).
  split; [exact H|].
  apply (proj1 (signals_reach_own_children stopped_in_flight
                  served_stopped_in_flight)).
  left. exact H.
Defined.

Lemma mission_logs_output_witness :
  logs (worker_steps (steps_bound mixed_env)
          (mk_sys (Some (mk_thread L42 mixed_env)) false None false [] []))
  = ["2024-03-07 09:05:00 - herd sighted";
     "2024-03-07 09:05:02 - drone repositioning"].
Proof.
  destruct (mission_logs_output mixed_env 4242 mixed_lines None false [] []
              eq_refl eq_refl eq_refl eq_refl eq_refl eq_refl)
    as (_ & H & _).
  - repeat constructor.
  - simpl. lia.
  - rewrite H. reflexivity.
Defined.

Lemma failed_launch_leaves_no_child_witness :
  worker_steps (steps_bound missing_script)
    (mk_sys (Some (mk_thread L42 missing_script)) false None false [] [])
  = mk_sys (Some (mk_thread Finished missing_script)) false None false [] [].
Proof.
  apply failed_launch_leaves_no_child. right. reflexivity.
Defined.

Lemma stop_request_ends_worker_witness :
  thread_alive
    (run_worker 13 []
       (mk_sys (Some (mk_thread Lread three_lines)) true (Some 4242) true
               [] [EvPopen 4242])) = false.
Proof.
  apply (stop_request_ends_worker (mk_thread Lread three_lines)).
  reflexivity.
Defined.



Lemma mission_status_coherent_witness :
  Status.thread_alive (Status.mk "running" true false true 0 []) = true /\
  Status.status (Status.mk "running" true false true 0 []) <> "idle".
Proof.
  apply (proj1 (mission_status_coherent marked_running
                  (Status.mk "running" true false true 0 [])
                  ltac:(apply reachable_worker_steps, reachable_start_mission,
                          reach_initial)
                  eq_refl)).
  reflexivity.
Defined.

Lemma status_and_logs_agree_witness :
  exists b r,
    body_of (mission_status seven_logs) = Some b /\
    body_of (get_logs 10 NotFound seven_logs) = Some r /\
    Status.recent_logs b = Logs.runtime_logs r.
Proof.
  eexists. eexists. split; [reflexivity|]. split; [reflexivity|].
  apply (status_and_logs_agree seven_logs NotFound); reflexivity.
Defined.

Lemma get_logs_monotone_witness :
  exists r r',
    body_of (get_logs 3 NotFound seven_logs) = Some r /\
    body_of (get_logs 5 (Unreadable (mk_exn OSError "denied")) seven_logs)
    = Some r' /\
    Logs.runtime_logs r = lastn 3 (Logs.runtime_logs r').
Proof.
  eexists. eexists. split; [reflexivity|]. split; [reflexivity|].
  apply (get_logs_monotone 3 5 NotFound (Unreadable (mk_exn OSError "denied"))
                           seven_logs); (lia || reflexivity).
Defined.

Lemma get_logs_entries_witness :
  exists line,
    In line ["a
"; "
"; " b
"] /\ "b" = Py.strip line /\ isblank line = false.
Proof.
  apply (proj2 (get_logs_entries 5 (Contents ["a
"; "
"; " b
"]) line_in_hand (Logs.mk ["a"; "b"] 3 [] (Some 0))
                 reachable_line_in_hand eq_refl) _ "b" eq_refl).
  right. left. reflexivity.
Defined.

Lemma start_mission_clears_stop_witness :
  stop_mission_flag (snd (start_mission launch_ok stale_stop)) = false.
Proof.
  apply (start_mission_clears_stop launch_ok stale_stop
           (Start.mk "success" "WildWings mission started") eq_refl).
Defined.

